(** * Visa Roadmap Assistant ([mainapp.py]): a shallow embedding

    The script is a Streamlit page: it extracts the text of an uploaded
    questionnaire (remote OCR first, PyPDF2 as fallback), sends it to a
    roadmap service and renders the answer on screen and as a PDF download.

    Python strings are sequences of Unicode code points, and the script
    relies on that (it splits on whitespace, and on a delimiter holding
    U+2014), so a string is a list of code points here, never a list of
    bytes. *)

From Stdlib Require Import List NArith ZArith Bool Lia Ascii String DecimalString.
From Stdlib Require Strings.Byte.
Import ListNotations.

Set Warnings "-register-all".

(** ** Strings *)

Module PyStr.

Definition char := N.
Definition pystr := list char.

(** An ASCII literal of the source as a Python string. *)
Definition lit (s : string) : pystr := map N_of_ascii (list_ascii_of_string s).
Arguments lit s%_string.

Definition nl : char := 10%N.
Definition space : char := 32%N.

(** [str.isspace] on one code point: the table of CPython's
    [_PyUnicode_IsWhitespace], which [str.split()] and [str.strip()] use. *)
Definition isspace (c : char) : bool :=
  ((9 <=? c) && (c <=? 13) || (28 <=? c) && (c <=? 32)
   || (c =? 133) || (c =? 160) || (c =? 5760)
   || (8192 <=? c) && (c <=? 8202)
   || (c =? 8232) || (c =? 8233) || (c =? 8239) || (c =? 8287)
   || (c =? 12288))%N.

(** [s.split()]: the maximal runs of non-whitespace of [s], left to right.
    [word] is the run being read, last character first. *)
Fixpoint split_from (word : pystr) (s : pystr) : list pystr :=
  match s with
  | [] => match word with [] => [] | _ => [rev word] end
  | c :: s' =>
      if isspace c
      then match word with
           | [] => split_from [] s'
           | _ => rev word :: split_from [] s'
           end
      else split_from (c :: word) s'
  end.

Definition split (s : pystr) : list pystr := split_from [] s.

(** [sep.join(parts)]. *)
Fixpoint join (sep : pystr) (parts : list pystr) : pystr :=
  match parts with
  | [] => []
  | [p] => p
  | p :: rest => p ++ sep ++ join sep rest
  end.

Fixpoint lstrip (s : pystr) : pystr :=
  match s with
  | [] => []
  | c :: s' => if isspace c then lstrip s' else s
  end.

Definition rstrip (s : pystr) : pystr := rev (lstrip (rev s)).

(** [s.strip()]. *)
Definition strip (s : pystr) : pystr := rstrip (lstrip s).

(** [s.startswith(p)]. *)
Fixpoint startswith (p s : pystr) : bool :=
  match p, s with
  | [], _ => true
  | _ :: _, [] => false
  | a :: p', b :: s' => (a =? b)%N && startswith p' s'
  end.

(** [s.split(sep)] for a non-empty [sep]: the pieces between the
    occurrences of [sep], scanned left to right without overlap; empty
    pieces are kept.  [skip] counts the characters of a separator that was
    just matched and are still to be passed over; [piece] is the piece
    being read, last character first. *)
Fixpoint split_on_from (sep : pystr) (skip : nat) (piece : pystr) (s : pystr)
  : list pystr :=
  match s with
  | [] => [rev piece]
  | c :: s' =>
      match skip with
      | S k => split_on_from sep k piece s'
      | O =>
          if startswith sep s
          then rev piece :: split_on_from sep (List.length sep - 1) [] s'
          else split_on_from sep 0 (c :: piece) s'
      end
  end.

Definition split_on (sep s : pystr) : list pystr := split_on_from sep 0 [] s.

(** [str.lower] on the ASCII letters; every other code point is kept.  It
    is applied to the labels of the visa-type selector only, which are
    ASCII. *)
Definition lower_char (c : char) : char :=
  if ((65 <=? c) && (c <=? 90))%N then (c + 32)%N else c.

Definition lower (s : pystr) : pystr := map lower_char s.

(** [str(n)] for an [int]. *)
Definition str_of_int (n : Z) : pystr := lit (NilEmpty.string_of_int (Z.to_int n)).

(** Equality test on strings. *)
Fixpoint eqb (s t : pystr) : bool :=
  match s, t with
  | [], [] => true
  | a :: s', b :: t' => (a =? b)%N && eqb s' t'
  | _, _ => false
  end.

(** *** What "tidy" text is *)

(** No two whitespace characters in a row. *)
Fixpoint no_double_space (s : pystr) : bool :=
  match s with
  | [] => true
  | c :: s' =>
      match s' with
      | [] => true
      | d :: _ => negb (isspace c && isspace d) && no_double_space s'
      end
  end.

(** No whitespace character first. *)
Definition no_leading_space (s : pystr) : bool :=
  match s with
  | [] => true
  | c :: _ => negb (isspace c)
  end.

(** No whitespace character last. *)
Definition no_trailing_space (s : pystr) : bool := no_leading_space (rev s).

Definition tidy (s : pystr) : bool :=
  no_double_space s && no_leading_space s && no_trailing_space s.

Definition nonspace (c : char) : bool := negb (isspace c).

(** A word: not empty and free of whitespace. *)
Definition word (w : pystr) : Prop := w <> [] /\ forallb nonspace w = true.

End PyStr.

Import PyStr.

Declare Scope py_scope.
Delimit Scope py_scope with py.
Bind Scope py_scope with pystr.
Local Open Scope py_scope.

(** ** Values *)

(** What [response.json()] can return: the Python image of a JSON document.
    A dict keeps its keys in insertion order and the script may iterate one,
    so it is an association list, read by key; [json] builds it with
    pairwise distinct keys.  Numbers with a fraction are not modelled. *)
Inductive pyval : Type :=
| VNone
| VBool (b : bool)
| VInt (n : Z)
| VStr (s : pystr)
| VList (items : list pyval)
| VDict (entries : list (pystr * pyval)).

(** [type(v).__name__]. *)
Definition type_name (v : pyval) : pystr :=
  match v with
  | VNone => lit "NoneType"
  | VBool _ => lit "bool"
  | VInt _ => lit "int"
  | VStr _ => lit "str"
  | VList _ => lit "list"
  | VDict _ => lit "dict"
  end.

(** Truth value of [v] in [if v:]. *)
Definition truthy (v : pyval) : bool :=
  match v with
  | VNone => false
  | VBool b => b
  | VInt n => negb (n =? 0)%Z
  | VStr s => match s with [] => false | _ => true end
  | VList l => match l with [] => false | _ => true end
  | VDict d => match d with [] => false | _ => true end
  end.

(** The value bound to [key] in a dict. *)
Fixpoint lookup (key : pystr) (entries : list (pystr * pyval)) : option pyval :=
  match entries with
  | [] => None
  | (k, v) :: rest => if PyStr.eqb k key then Some v else lookup key rest
  end.

(** [d.get(key, default)] on a dict. *)
Definition dict_get (entries : list (pystr * pyval)) (key : pystr) (default : pyval)
  : pyval :=
  match lookup key entries with
  | Some x => x
  | None => default
  end.

(** ** Exceptions *)

(** An exception object: its class and [str(e)]. *)
Record exn : Type := Exn { exn_class : pystr; exn_str : pystr }.

Definition result (A : Type) : Type := (exn + A)%type.

(** The exceptions the interpreter itself raises on the operations the
    script applies to a [json] value.  No path of the script shows their
    text; it is CPython's. *)
Definition KeyError (key : pystr) : exn :=
  Exn (lit "KeyError") (lit "'" ++ key ++ lit "'").

Definition AttributeError (v : pyval) (attr : pystr) : exn :=
  Exn (lit "AttributeError")
      (lit "'" ++ type_name v ++ lit "' object has no attribute '" ++ attr ++ lit "'").

Definition TypeError (message : pystr) : exn := Exn (lit "TypeError") message.

Definition TypeError_not_iterable (v : pyval) : exn :=
  TypeError (lit "'" ++ type_name v ++ lit "' object is not iterable").

Definition TypeError_subscript (v : pyval) : exn :=
  TypeError
    match v with
    | VStr _ => lit "string indices must be integers, not 'str'"
    | VList _ => lit "list indices must be integers or slices, not str"
    | _ => lit "'" ++ type_name v ++ lit "' object is not subscriptable"
    end.

(** ** The page and the world around the script *)

Definition bytes : Type := list Byte.byte.

(** What the script shows ([st.*]) and which outside calls it makes, in the
    order of execution. *)
Inductive event : Type :=
| st_error (body : pystr)
| st_warning (body : pystr)
| st_success (body : pystr)
| st_spinner (text : pystr)
| st_subheader (body : pystr)
| st_expander (label : pystr) (expanded : bool)
| st_markdown (body : pyval)
| st_text (body : pystr)
| st_button (label : pystr)
| st_download_button (label : pystr) (data : bytes) (file_name mime : pystr)
| requests_post (url : pystr)
| PyPDF2_PdfReader.

(** The visa types of the selector. *)
Inductive RoadmapCategory : Type := Immigration | Study | Travel | Work.

(** The option strings of [st.selectbox], which are the values
    [roadmap_type] takes. *)
Definition label (c : RoadmapCategory) : pystr :=
  match c with
  | Immigration => lit "Immigration Visa"
  | Study => lit "Study Visa"
  | Travel => lit "Travel Visa"
  | Work => lit "Work Visa"
  end.

(** An HTTP response: [response.status_code] and what [response.json()]
    returns or raises. *)
Record response : Type := Response { status_code : Z; json : result pyval }.

(** Everything the script reads from outside itself in one run.
    - [secrets key]: [st.secrets[key]], the secret or the exception
      Streamlit raises for a key it does not hold; [key in st.secrets] is
      whether it is held;
    - [ocr_service key pdf]: [requests.post] to the OCR endpoint with the
      API key header and the file;
    - [pdf_pages pdf]: [import PyPDF2] and [PyPDF2.PdfReader(pdf_file).pages],
      each page paired with what its [extract_text()] returns or raises;
    - [roadmap_service text type info]: [requests.post] to the roadmap
      endpoint with the three parameters;
    - [markdown_pdf content]: [MarkdownPdf] with one [Section(content)],
      saved into a buffer;
    - the widgets: selector, text area, file uploader (the uploaded file is
      its bytes; [getvalue()] returns them), and whether "Generate" was
      clicked. *)
Record Env : Type := {
  secrets : pystr -> result pystr;
  ocr_service : pystr -> bytes -> result response;
  pdf_pages : bytes -> result (list (result pystr));
  roadmap_service : pystr -> pystr -> pystr -> result response;
  markdown_pdf : pystr -> result bytes;
  selectbox : option RoadmapCategory;
  text_area : pystr;
  file_uploader : option bytes;
  button_clicked : bool
}.

(** ** Computations: a log of events, and a result or an exception *)

Definition M (A : Type) : Type := list event -> result A * list event.

Definition ret {A} (a : A) : M A := fun log => (inr a, log).

Definition raise {A} (e : exn) : M A := fun log => (inl e, log).

Definition bind {A B} (m : M A) (k : A -> M B) : M B :=
  fun log =>
    match m log with
    | (inr a, log') => k a log'
    | (inl e, log') => (inl e, log')
    end.

(** One more event on the page. *)
Definition emit (ev : event) : M unit := fun log => (inr tt, log ++ [ev]).

(** The outcome of an outside call. *)
Definition lift {A} (r : result A) : M A := fun log => (r, log).

(** [try: body except Exception as e: handler e]. *)
Definition try_except {A} (body : M A) (handler : exn -> M A) : M A :=
  fun log =>
    match body log with
    | (inl e, log') => handler e log'
    | done => done
    end.

Declare Scope monad_scope.
Delimit Scope monad_scope with monad.
Notation "x <- m ;; k" := (bind m (fun x => k))
  (at level 61, m at next level, right associativity) : monad_scope.
Notation "m ;; k" := (bind m (fun _ => k))
  (at level 61, right associativity) : monad_scope.
Local Open Scope monad_scope.

(** [for x in items: body x]. *)
Fixpoint for_each {A} (items : list A) (body : A -> M unit) : M unit :=
  match items with
  | [] => ret tt
  | x :: rest => body x ;; for_each rest body
  end.

(** [when c m]: [if c: m]. *)
Definition when (c : bool) (m : M unit) : M unit := if c then m else ret tt.

(** ** Operations of the interpreter on [json] values *)

(** [v.get(key, default)]: only a dict has the method. *)
Definition py_get (v : pyval) (key : pystr) (default : pyval) : M pyval :=
  match v with
  | VDict d => ret (dict_get d key default)
  | _ => raise (AttributeError v (lit "get"))
  end.

(** [v[key]] for a string [key]. *)
Definition py_getitem (v : pyval) (key : pystr) : M pyval :=
  match v with
  | VDict d => match lookup key d with Some x => ret x | None => raise (KeyError key) end
  | _ => raise (TypeError_subscript v)
  end.

(** [v.split()], [v.split(sep)] and [v.strip()]: only a str has them. *)
Definition py_split (v : pyval) : M (list pystr) :=
  match v with
  | VStr s => ret (split s)
  | _ => raise (AttributeError v (lit "split"))
  end.

Definition py_split_on (v : pyval) (sep : pystr) : M (list pystr) :=
  match v with
  | VStr s => ret (split_on sep s)
  | _ => raise (AttributeError v (lit "split"))
  end.

Definition py_strip (v : pyval) : M pystr :=
  match v with
  | VStr s => ret (strip s)
  | _ => raise (AttributeError v (lit "strip"))
  end.

(** The items [for x in v] runs through: the items of a list, the
    characters of a str, the keys of a dict. *)
Definition py_iter (v : pyval) : M (list pyval) :=
  match v with
  | VList items => ret items
  | VStr s => ret (map (fun c => VStr [c]) s)
  | VDict d => ret (map (fun kv => VStr (fst kv)) d)
  | _ => raise (TypeError_not_iterable v)
  end.

(** ** [extract_text_from_pdf] and [fallback_extract_text] *)

Definition ocr_url : pystr := lit "https://ocr-text-extraction.p.rapidapi.com/v1/ocr/".

(** The loop [for page in pdf_reader.pages: text += page.extract_text()]:
    the text read so far, extended page by page until a page raises. *)
Fixpoint read_pages (text : pystr) (pages : list (result pystr)) : result pystr :=
  match pages with
  | [] => inr text
  | inl e :: _ => inl e
  | inr t :: rest => read_pages (text ++ t) rest
  end.

(** The warning of line 39 and the error of line 62. *)
Definition fallback_warning : event :=
  st_warning (lit "Using fallback PDF extraction method").

Definition extraction_error (e : exn) : event :=
  st_error (lit "Error in text extraction: " ++ exn_str e).

Definition fallback_extract_text (env : Env) (pdf_file : bytes) : M pystr :=
  try_except
    (emit PyPDF2_PdfReader ;;
     pages <- lift (pdf_pages env pdf_file) ;;
     text <- lift (read_pages [] pages) ;;
     let single_line_text := strip (join (lit " ") (split text)) in
     ret single_line_text)
    (fun e =>
       emit (extraction_error e) ;;
       ret []).

Definition extract_text_from_pdf (env : Env) (pdf_file : bytes) : M pystr :=
  key <- lift (secrets env (lit "RAPIDAPI_KEY")) ;;
  try_except
    (let pdf_bytes := pdf_file in
     emit (requests_post ocr_url) ;;
     response <- lift (ocr_service env key pdf_bytes) ;;
     if (status_code response =? 200)%Z
     then
       body <- lift (json response) ;;
       extracted_text <- py_get body (lit "text") (VStr []) ;;
       words <- py_split extracted_text ;;
       let single_line_text := join (lit " ") words in
       ret single_line_text
     else fallback_extract_text env pdf_file)
    (fun _ =>
       emit fallback_warning ;;
       fallback_extract_text env pdf_file).

(** The text the [try] body of [fallback_extract_text] has read when it
    reaches the normalisation, or the exception that ended it: of the
    import, of the reader or of a page. *)
Definition local_text (env : Env) (pdf_file : bytes) : result pystr :=
  match pdf_pages env pdf_file with
  | inl e => inl e
  | inr pages => read_pages [] pages
  end.

(** What [response.json().get('text', '')] evaluates to when the body is a
    dict: the value under the key, the empty string when the dict has
    none.  On any other body the call raises. *)
Definition text_field (body : pyval) : option pyval :=
  match body with
  | VDict d => Some (dict_get d (lit "text") (VStr []))
  | _ => None
  end.

(** The text the primary path extracts, when it extracts one: the OCR call
    returned, with status 200 and a dict body whose text field is a str.
    In every other case control reaches [fallback_extract_text]. *)
Definition primary_text (answer : result response) : option pystr :=
  match answer with
  | inl _ => None
  | inr response =>
      if (status_code response =? 200)%Z
      then match json response with
           | inl _ => None
           | inr body =>
               match text_field body with
               | Some (VStr text) => Some text
               | _ => None
               end
           end
      else None
  end.

(** Events by kind. *)
Definition is_warning (ev : event) : bool :=
  match ev with st_warning _ => true | _ => false end.

Definition is_error (ev : event) : bool :=
  match ev with st_error _ => true | _ => false end.

(** ** [call_visa_roadmap_api] *)

Definition roadmap_url : pystr :=
  lit "https://latestvisaroadmap-247572588539.us-central1.run.app/generate_roadmap".

(** The 404 branch has no [return]: control leaves the [try] and the
    function ends, which returns [None]. *)
Definition call_visa_roadmap_api (env : Env)
    (text roadmap_type additional_information : pystr) : M pyval :=
  try_except
    (emit (requests_post roadmap_url) ;;
     response <- lift (roadmap_service env text roadmap_type additional_information) ;;
     if (status_code response =? 200)%Z
     then lift (json response)
     else if (status_code response =? 404)%Z
     then
       emit (st_error (lit "API Error: Data Not Found (" ++ str_of_int (status_code response)
                         ++ lit ")")) ;;
       ret VNone
     else
       emit (st_error (lit "API Error: " ++ str_of_int (status_code response))) ;;
       ret VNone)
    (fun e =>
       emit (st_error (lit "API Error: " ++ exn_str e)) ;;
       ret VNone).

(** ** Rendering *)

Section Rendering.

(** [str(v)] for a list or a dict [v]: the interpreter's rendering of a
    container, which quotes and escapes the strings inside by rules the
    script has no part in. *)
Variable container_str : pyval -> pystr.

(** [f"{v}"]. *)
Definition format_value (v : pyval) : pystr :=
  match v with
  | VStr s => s
  | VNone => lit "None"
  | VBool true => lit "True"
  | VBool false => lit "False"
  | VInt n => str_of_int n
  | VList _ | VDict _ => container_str v
  end.

(** The delimiter of line 113, the two code points U+00E2 U+2014. *)
Definition bullet_delimiter : pystr := [226; 8212]%N.

(** The loop over the pieces of the questionnaire. *)
Fixpoint append_questionnaire (markdown_content : list pystr) (pieces : list pystr)
  : list pystr :=
  match pieces with
  | [] => markdown_content
  | line :: rest =>
      append_questionnaire
        (match strip line with
         | [] => markdown_content
         | _ => markdown_content ++ [lit "- " ++ strip line ++ [nl]]
         end)
        rest
  end.

(** The loop over the NOC codes. *)
Fixpoint append_noc_codes (markdown_content : list pystr) (codes : list pyval)
  : M (list pystr) :=
  match codes with
  | [] => ret markdown_content
  | noc :: rest =>
      stripped <- py_strip noc ;;
      append_noc_codes (markdown_content ++ [lit "- " ++ stripped ++ [nl]]) rest
  end.

(** The five section headings of the report. *)
Definition heading_questionnaire : pystr := lit "## 1. Questionnaire and Response:" ++ [nl].
Definition heading_job_roles : pystr :=
  lit "## 2. Job Roles Based on Education and Work Experience:" ++ [nl].
Definition heading_noc_codes : pystr := lit "## 3. NOC Codes:" ++ [nl].
Definition heading_crs_score : pystr := lit "## 4. CRS Score Breakdown:" ++ [nl].
Definition heading_roadmap : pystr := lit "## 5. Roadmap for Canada Immigration:" ++ [nl].

(** The list [markdown_content] at the [return] of
    [convert_dict_to_markdown]. *)
Definition convert_dict_to_markdown_content (data : pyval) : M (list pystr) :=
  let markdown_content := [] in
  let markdown_content := markdown_content ++ [lit "# Immigration Profile Report" ++ [nl]] in
  let markdown_content := markdown_content ++ [heading_questionnaire] in
  questionnaire <- py_get data (lit "questionnaire") (VStr []) ;;
  pieces <- py_split_on questionnaire bullet_delimiter ;;
  let markdown_content := append_questionnaire markdown_content pieces in
  let markdown_content := markdown_content ++ [heading_job_roles] in
  job_roles <- py_get data (lit "job_roles") (VStr []) ;;
  let markdown_content := markdown_content ++ [format_value job_roles ++ [nl]] in
  let markdown_content := markdown_content ++ [heading_noc_codes] in
  noc_codes <- py_get data (lit "noc_codes") (VList []) ;;
  codes <- py_iter noc_codes ;;
  markdown_content <- append_noc_codes markdown_content codes ;;
  let markdown_content := markdown_content ++ [heading_crs_score] in
  crs_score <- py_get data (lit "crs_score") (VStr []) ;;
  let markdown_content := markdown_content ++ [format_value crs_score ++ [nl]] in
  let markdown_content := markdown_content ++ [heading_roadmap] in
  roadmap <- py_get data (lit "roadmap") (VStr []) ;;
  let markdown_content := markdown_content ++ [format_value roadmap ++ [nl]] in
  ret markdown_content.

Definition convert_dict_to_markdown (data : pyval) : M pystr :=
  markdown_content <- convert_dict_to_markdown_content data ;;
  ret (join [nl] markdown_content).

(** [create_pdf_content] reads the global [roadmap_type], the selected
    option string. *)
Definition create_pdf_content (roadmap_type : pystr) (data : pyval) : pystr :=
  match data with
  | VDict d =>
      let markdown_content := [] in
      let markdown_content := markdown_content ++ [lit "# Immigration Roadmap" ++ [nl]] in
      let roadmap := dict_get d (lit "roadmap") (VStr []) in
      let markdown_content := markdown_content ++ [format_value roadmap ++ [nl]] in
      join [nl] markdown_content
  | _ =>
      lit "# " ++ roadmap_type ++ lit " Roadmap" ++ [nl; nl] ++ format_value data
  end.

(** ** The page script *)

(** [extracted_text[:500] + "..." if len(extracted_text) > 500 else
    extracted_text]. *)
Definition preview (extracted_text : pystr) : pystr :=
  if (500 <? List.length extracted_text)%nat
  then firstn 500 extracted_text ++ lit "..."
  else extracted_text.

(** The part common to both blocks: extraction and its preview. *)
Definition extract_and_preview (env : Env) (uploaded_file : bytes) : M pystr :=
  emit (st_spinner (lit "Extracting text from PDF...")) ;;
  extracted_text <- extract_text_from_pdf env uploaded_file ;;
  when (truthy (VStr extracted_text))
    (emit (st_success (lit "PDF text extracted successfully!")) ;;
     emit (st_expander (lit "Preview extracted text") false) ;;
     emit (st_text (preview extracted_text))) ;;
  ret extracted_text.

(** Lines 204-217 and 238-251: the PDF of [create_pdf_content] behind a
    download button. *)
Definition offer_download (env : Env) (roadmap_type : pystr) (result : pyval)
    (file_name : pystr) : M unit :=
  let pdf_content := create_pdf_content roadmap_type result in
  pdf_output <- lift (markdown_pdf env pdf_content) ;;
  emit (st_download_button (lit "Download Roadmap as PDF") pdf_output file_name
          (lit "application/pdf")).

(** Lines 174-217. *)
Definition immigration_block (env : Env) (roadmap_type : pystr) (uploaded_file : bytes)
  : M unit :=
  extracted_text <- extract_and_preview env uploaded_file ;;
  emit (st_button (lit "Generate")) ;;
  when (button_clicked env)
    (emit (st_spinner (lit "Processing...")) ;;
     result <- call_visa_roadmap_api env extracted_text roadmap_type (text_area env) ;;
     when (truthy result)
       (emit (st_subheader (lit "Your Immigration Roadmap")) ;;
        emit (st_expander (lit "Roadmap") true) ;;
        roadmap <- py_getitem result (lit "roadmap") ;;
        emit (st_markdown roadmap) ;;
        emit (st_expander (lit "CRS Score Details") false) ;;
        crs_score <- py_getitem result (lit "crs_score") ;;
        emit (st_markdown crs_score) ;;
        emit (st_expander (lit "Eligible Job Roles") false) ;;
        job_roles <- py_getitem result (lit "job_roles") ;;
        emit (st_markdown job_roles) ;;
        emit (st_expander (lit "NOC Codes") false) ;;
        noc_codes <- py_getitem result (lit "noc_codes") ;;
        codes <- py_iter noc_codes ;;
        for_each codes
          (fun noc => emit (st_markdown noc) ;; emit (st_markdown (VStr (lit "---")))) ;;
        offer_download env roadmap_type result (lit "immigration_roadmap.pdf"))).

(** Lines 220-251. *)
Definition other_block (env : Env) (roadmap_type : pystr) (uploaded_file : bytes)
  : M unit :=
  extracted_text <- extract_and_preview env uploaded_file ;;
  emit (st_button (lit "Generate")) ;;
  when (button_clicked env)
    (emit (st_spinner (lit "Processing...")) ;;
     result <- call_visa_roadmap_api env extracted_text roadmap_type (text_area env) ;;
     when (truthy result)
       (emit (st_subheader (lit "Your " ++ roadmap_type ++ lit " Roadmap")) ;;
        emit (st_expander (lit "Roadmap") true) ;;
        emit (st_markdown result) ;;
        offer_download env roadmap_type result
          (lower roadmap_type ++ lit "_roadmap.pdf"))).

(** One run of the script, from the check of the secret on.  The page
    title and the sidebar, which show the same text in every run, are left
    out.  [st.stop()] ends the run. *)
Definition main (env : Env) : M unit :=
  match secrets env (lit "RAPIDAPI_KEY") with
  | inl _ =>
      emit (st_error (lit "Please configure your RapidAPI key in .streamlit/secrets.toml"))
  | inr _ =>
      let roadmap_type := option_map label (selectbox env) in
      let uploaded_file := file_uploader env in
      match roadmap_type, uploaded_file with
      | Some t, Some f =>
          when (PyStr.eqb t (lit "Immigration Visa")) (immigration_block env t f) ;;
          when (negb (PyStr.eqb t (lit "Immigration Visa"))) (other_block env t f)
      | _, _ => ret tt
      end
  end.

End Rendering.

(** ** Reading the log *)

(** The events that show a report: its title, its sections and their
    content, and the download button.  The expander of the text preview
    belongs to the extraction. *)
Definition is_report (ev : event) : bool :=
  match ev with
  | st_subheader _ | st_markdown _ | st_download_button _ _ _ _ => true
  | st_expander label _ => negb (PyStr.eqb label (lit "Preview extracted text"))
  | _ => false
  end.

(** The file names of the download buttons of a log. *)
Definition file_name_of (ev : event) : option pystr :=
  match ev with
  | st_download_button _ _ file_name _ => Some file_name
  | _ => None
  end.

Fixpoint offered_files (log : list event) : list pystr :=
  match log with
  | [] => []
  | ev :: rest =>
      match file_name_of ev with
      | Some file_name => file_name :: offered_files rest
      | None => offered_files rest
      end
  end.

(** [appends P m]: from any log, [m] leaves the log it found, followed by
    events that all satisfy [P]. *)
Definition appends {A} (P : event -> Prop) (m : M A) : Prop :=
  forall log, exists added, snd (m log) = log ++ added /\ Forall P added.

(** The name the script gives the download for each selection: the
    literal of line 215 for Immigration, the lower-cased option string
    followed by "_roadmap.pdf" (line 249) for the others. *)
Definition roadmap_file_name (c : RoadmapCategory) : pystr :=
  match c with
  | Immigration => lit "immigration_roadmap.pdf"
  | _ => lower (label c) ++ lit "_roadmap.pdf"
  end.

(** [names_file name ev]: if [ev] is a download button, its file is
    [name]. *)
Definition names_file (name : pystr) (ev : event) : Prop :=
  forall file_name, file_name_of ev = Some file_name -> file_name = name.

(** The keys the Immigration block subscripts the answer with, in the
    order it does. *)
Definition report_keys : list pystr :=
  [lit "roadmap"; lit "crs_score"; lit "job_roles"; lit "noc_codes"].

(** What the loop of lines 200-202 shows for the codes. *)
Definition noc_events (codes : list pyval) : list event :=
  flat_map (fun noc => [st_markdown noc; st_markdown (VStr (lit "---"))]) codes.

(** A str. *)
Definition is_str (v : pyval) : bool :=
  match v with VStr _ => true | _ => false end.

(** The answers [convert_dict_to_markdown] can go through: a dict whose
    questionnaire, if it has one, is a str, and whose NOC codes, if it has
    them, can be iterated and give strs only: a list of strs, a str (which
    gives its characters) or a dict (which gives its keys). *)
Definition renderable (data : pyval) : bool :=
  match data with
  | VDict d =>
      is_str (dict_get d (lit "questionnaire") (VStr []))
      && match dict_get d (lit "noc_codes") (VList []) with
         | VList items => forallb is_str items
         | VStr _ | VDict _ => true
         | _ => false
         end
  | _ => false
  end.

(** The URLs of the requests of a log, in order. *)
Fixpoint requests (log : list event) : list pystr :=
  match log with
  | [] => []
  | requests_post url :: rest => url :: requests rest
  | _ :: rest => requests rest
  end.

(** ** Sample runs *)

Module Sample.

Definition pdf : bytes := [Byte.x25; Byte.x50; Byte.x44; Byte.x46].

(** Containers are shown as an ellipsis in the sample runs, none of which
    formats one. *)
Definition container_str (_ : pyval) : pystr := lit "...".

Definition secrets_toml (key : pystr) : result pystr :=
  if PyStr.eqb key (lit "RAPIDAPI_KEY") then inr (lit "k-123") else inl (KeyError key).

(** A run with the secret configured, a file uploaded and "Generate"
    clicked; the answers of the OCR service, of PyPDF2 and of the roadmap
    service, and the selected visa type, vary. *)
Definition env (ocr : result response) (pages : result (list (result pystr)))
    (roadmap : result response) (category : RoadmapCategory) : Env :=
  {| secrets := secrets_toml;
     ocr_service := fun _ _ => ocr;
     pdf_pages := fun _ => pages;
     roadmap_service := fun _ _ _ => roadmap;
     markdown_pdf := fun _ => inr pdf;
     selectbox := Some category;
     text_area := [];
     file_uploader := Some pdf;
     button_clicked := true |}.

Definition ok (body : pyval) : result response := inr (Response 200 (inr body)).
Definition status (code : Z) : result response := inr (Response code (inr VNone)).
Definition failure (message : pystr) : result (list (result pystr)) :=
  inl (Exn (lit "PdfReadError") message).
Definition timeout : exn := Exn (lit "ConnectionError") (lit "timed out").

Definition ocr_text : result response :=
  ok (VDict [(lit "text", VStr (lit "age 29" ++ [nl] ++ lit "  job developer "))]).

Definition express_entry : pystr := lit "Apply via Express Entry...".

(** An Immigration answer with every field, and one with the roadmap
    only. *)
Definition full_report : pyval :=
  VDict [(lit "questionnaire", VStr (lit "Age: 29"));
         (lit "job_roles", VStr (lit "Software developer"));
         (lit "noc_codes", VList [VStr (lit "21232"); VStr (lit "21234")]);
         (lit "crs_score", VStr (lit "470"));
         (lit "roadmap", VStr (lit "Step 1"))].

Definition roadmap_only : pyval := VDict [(lit "roadmap", VStr (lit "Step 1"))].

End Sample.

(** * Properties *)

(** ** Whitespace normalisation *)

Section Normalisation.

Lemma forallb_rev (f : char -> bool) (s : pystr) : forallb f (rev s) = forallb f s.
Proof.
  induction s as [|c s IH]; simpl; [reflexivity|].
  rewrite forallb_app, IH; simpl.
  rewrite andb_true_r. apply andb_comm.
Qed.

Lemma word_rev (w : pystr) :
  w <> [] -> forallb nonspace w = true -> word (rev w).
Proof.
  intros Hne Hw. split.
  - intro Hrev. apply Hne.
    rewrite <- (rev_involutive w), Hrev. reflexivity.
  - rewrite forallb_rev. exact Hw.
Qed.

(** Every piece [split] returns is a word. *)
Lemma split_from_words (s : pystr) :
  forall w, forallb nonspace w = true -> Forall word (split_from w s).
Proof.
  induction s as [|c s IH]; intros w Hw; simpl.
  - destruct w as [|a w']; constructor.
    + apply word_rev; [discriminate | exact Hw].
    + constructor.
  - destruct (isspace c) eqn:Hc.
    + destruct w as [|a w'].
      * apply IH. reflexivity.
      * constructor.
        -- apply word_rev; [discriminate | exact Hw].
        -- apply IH. reflexivity.
    + apply IH. simpl. unfold nonspace at 1. rewrite Hc. exact Hw.
Qed.

Lemma split_words (s : pystr) : Forall word (split s).
Proof. apply split_from_words. reflexivity. Qed.

Lemma no_double_space_app_word (w t : pystr) :
  forallb nonspace w = true -> no_double_space t = true ->
  no_double_space (w ++ t) = true.
Proof.
  intros Hw Ht. induction w as [|c w IH]; simpl; [exact Ht|].
  simpl in Hw. apply andb_true_iff in Hw as [Hc Hw].
  specialize (IH Hw).
  destruct (w ++ t) as [|d r] eqn:E; [reflexivity|].
  unfold nonspace in Hc. apply negb_true_iff in Hc.
  rewrite Hc. simpl. exact IH.
Qed.

Lemma no_double_space_cons (c : char) (t : pystr) :
  no_leading_space t = true -> no_double_space t = true ->
  no_double_space (c :: t) = true.
Proof.
  intros Hl Ht. simpl. destruct t as [|d r]; [reflexivity|].
  simpl in Hl. apply negb_true_iff in Hl.
  rewrite Hl, andb_false_r. simpl. exact Ht.
Qed.

Lemma no_leading_space_app (w t : pystr) :
  w <> [] -> no_leading_space w = true -> no_leading_space (w ++ t) = true.
Proof. destruct w; [congruence | auto]. Qed.

Lemma word_no_leading_space (w : pystr) : word w -> no_leading_space w = true.
Proof.
  intros [Hne Hw]. destruct w as [|c w]; [reflexivity|].
  simpl in *. apply andb_true_iff in Hw as [Hc _]. exact Hc.
Qed.

Lemma word_no_trailing_space (w : pystr) : word w -> no_trailing_space w = true.
Proof.
  intros [Hne Hw]. unfold no_trailing_space.
  apply word_no_leading_space, word_rev; assumption.
Qed.

(** Words joined by one separator each: no whitespace doubled, none at
    either end. *)
Lemma join_words_tidy (sep : char) (ws : list pystr) :
  Forall word ws ->
  tidy (join [sep] ws) = true /\ (ws <> [] -> join [sep] ws <> []).
Proof.
  induction 1 as [|w ws Hw Hws [IHt IHne]].
  - split; [reflexivity | congruence].
  - destruct ws as [|w' ws'].
    + simpl. split.
      * unfold tidy. destruct Hw as [Hne Hall].
        rewrite <- (app_nil_r w) at 1.
        rewrite no_double_space_app_word by (exact Hall || reflexivity).
        rewrite word_no_leading_space, word_no_trailing_space by (split; assumption).
        reflexivity.
      * intros _. apply Hw.
    + assert (Hj : join [sep] (w' :: ws') <> []) by (apply IHne; discriminate).
      change (join [sep] (w :: w' :: ws'))
        with (w ++ [sep] ++ join [sep] (w' :: ws')).
      remember (join [sep] (w' :: ws')) as J eqn:EJ. clear EJ.
      unfold tidy in IHt.
      apply andb_true_iff in IHt as [IHt Htr].
      apply andb_true_iff in IHt as [Hds Hld].
      split.
      * unfold tidy. destruct Hw as [Hne Hall].
        rewrite no_double_space_app_word;
          [| exact Hall | apply no_double_space_cons; assumption].
        rewrite no_leading_space_app;
          [| exact Hne | apply word_no_leading_space; split; assumption].
        simpl. unfold no_trailing_space in *.
        rewrite rev_app_distr. simpl. rewrite <- app_assoc.
        apply no_leading_space_app; [| exact Htr].
        intro Hr. apply Hj. rewrite <- (rev_involutive J), Hr. reflexivity.
      * intros _ Happ. destruct Hw as [Hne _].
        destruct w; [congruence | discriminate].
Qed.

(** [" ".join(s.split())] is tidy, whatever [s] is. *)
Lemma single_line_tidy (s : pystr) : tidy (join (lit " ") (split s)) = true.
Proof. apply (join_words_tidy space), split_words. Qed.

Lemma lstrip_id (s : pystr) : no_leading_space s = true -> lstrip s = s.
Proof.
  destruct s as [|c s]; [reflexivity|]. simpl. intros H.
  apply negb_true_iff in H. rewrite H. reflexivity.
Qed.

(** [strip] changes nothing in a text with no whitespace at its ends. *)
Lemma strip_id (s : pystr) :
  no_leading_space s = true -> no_trailing_space s = true -> strip s = s.
Proof.
  intros Hl Ht. unfold strip, rstrip.
  rewrite (lstrip_id s Hl), (lstrip_id (rev s) Ht).
  apply rev_involutive.
Qed.

(** The [.strip()] of the fallback adds nothing to the normalisation. *)
Lemma strip_single_line (s : pystr) :
  strip (join (lit " ") (split s)) = join (lit " ") (split s).
Proof.
  pose proof (single_line_tidy s) as H. unfold tidy in H.
  apply andb_true_iff in H as [H Ht].
  apply andb_true_iff in H as [_ Hl].
  apply strip_id; assumption.
Qed.

End Normalisation.

(** ** The extractor *)

Ltac run :=
  unfold bind, lift, emit, ret, raise, try_except, when; simpl.

(** [fallback_extract_text] returns: the normalised text of the pages, or
    the empty string after an error message. *)
Lemma fallback_extract_text_cases (env : Env) (f : bytes) (log : list event) :
  fallback_extract_text env f log =
  match local_text env f with
  | inr text =>
      (inr (join (lit " ") (split text)), log ++ [PyPDF2_PdfReader])
  | inl e =>
      (inr [], (log ++ [PyPDF2_PdfReader]) ++ [extraction_error e])
  end.
Proof.
  unfold fallback_extract_text, local_text. run.
  destruct (pdf_pages env f) as [e|pages]; [reflexivity|].
  destruct (read_pages [] pages) as [e|text]; [reflexivity|].
  rewrite strip_single_line. reflexivity.
Qed.

(** The run of [extract_text_from_pdf], branch by branch. *)
Lemma extract_text_from_pdf_cases (env : Env) (f : bytes) (key : pystr)
    (log : list event) :
  secrets env (lit "RAPIDAPI_KEY") = inr key ->
  extract_text_from_pdf env f log =
  let sent := log ++ [requests_post ocr_url] in
  match ocr_service env key f with
  | inl _ => fallback_extract_text env f (sent ++ [fallback_warning])
  | inr response =>
      if (status_code response =? 200)%Z
      then match json response with
           | inl _ => fallback_extract_text env f (sent ++ [fallback_warning])
           | inr body =>
               match text_field body with
               | Some (VStr text) => (inr (join (lit " ") (split text)), sent)
               | _ => fallback_extract_text env f (sent ++ [fallback_warning])
               end
           end
      else fallback_extract_text env f sent
  end.
Proof.
  intros Hkey. unfold extract_text_from_pdf. run. rewrite Hkey.
  destruct (ocr_service env key f) as [e|response]; [reflexivity|].
  destruct (status_code response =? 200)%Z.
  - destruct (json response) as [e|body]; [reflexivity|].
    destruct body as [| | | |items|d]; try reflexivity.
    simpl. destruct (dict_get d (lit "text") (VStr [])) as [| | |text| |]; reflexivity.
  - rewrite !fallback_extract_text_cases.
    destruct (local_text env f); reflexivity.
Qed.

Lemma fallback_extract_text_tidy (env : Env) (f : bytes) (log log' : list event)
    (s : pystr) :
  fallback_extract_text env f log = (inr s, log') -> tidy s = true.
Proof.
  rewrite fallback_extract_text_cases.
  destruct (local_text env f) as [e|text]; intros H; inversion H; subst.
  - reflexivity.
  - apply single_line_tidy.
Qed.

(** Without the secret the page stops at the message: no block runs, so
    [extract_text_from_pdf] is only ever called with the secret held. *)
Lemma main_without_secret (container_str : pyval -> pystr) (env : Env)
    (log : list event) (e : exn) :
  secrets env (lit "RAPIDAPI_KEY") = inl e ->
  main container_str env log =
  (inr tt,
   log ++ [st_error (lit "Please configure your RapidAPI key in .streamlit/secrets.toml")]).
Proof. intros H. unfold main. rewrite H. reflexivity. Qed.

(** C4: whatever the document, and whichever path produced it, the text
    [extract_text_from_pdf] returns has no two whitespace characters in a
    row and none at its start or its end. *)
Theorem extracted_text_is_tidy (env : Env) (f : bytes) (log log' : list event)
    (s : pystr) :
  extract_text_from_pdf env f log = (inr s, log') ->
  no_double_space s = true /\ no_leading_space s = true /\ no_trailing_space s = true.
Proof.
  intros H.
  assert (Ht : tidy s = true).
  { destruct (secrets env (lit "RAPIDAPI_KEY")) as [e|key] eqn:Hkey.
    - unfold extract_text_from_pdf in H. revert H. run. rewrite Hkey. discriminate.
    - rewrite (extract_text_from_pdf_cases env f key log Hkey) in H. cbv zeta in H.
      destruct (ocr_service env key f) as [e|response];
        [eapply fallback_extract_text_tidy; exact H|].
      destruct (status_code response =? 200)%Z;
        [|eapply fallback_extract_text_tidy; exact H].
      destruct (json response) as [e|body];
        [eapply fallback_extract_text_tidy; exact H|].
      destruct (text_field body) as [[| | |text| |]|];
        try (eapply fallback_extract_text_tidy; exact H).
      inversion H; subst. apply single_line_tidy. }
  unfold tidy in Ht.
  apply andb_true_iff in Ht as [Ht H3].
  apply andb_true_iff in Ht as [H1 H2].
  auto.
Qed.

Lemma extracted_text_is_tidy_witness :
  no_double_space (lit "age 29 job developer") = true
  /\ no_leading_space (lit "age 29 job developer") = true
  /\ no_trailing_space (lit "age 29 job developer") = true.
Proof.
  apply (extracted_text_is_tidy
           (Sample.env Sample.ocr_text (inr []) (Sample.status 404) Work)
           Sample.pdf [] [requests_post ocr_url]).
  vm_compute. reflexivity.
Defined.

(** When the primary path extracts no text, the run continues in
    [fallback_extract_text], after the request and at most one warning. *)
Lemma extract_falls_back (env : Env) (f : bytes) (key : pystr) (log : list event) :
  secrets env (lit "RAPIDAPI_KEY") = inr key ->
  primary_text (ocr_service env key f) = None ->
  exists shown,
    (shown = [] \/ shown = [fallback_warning]) /\
    extract_text_from_pdf env f log =
    fallback_extract_text env f ((log ++ [requests_post ocr_url]) ++ shown).
Proof.
  intros Hkey Hnone.
  rewrite (extract_text_from_pdf_cases env f key log Hkey). cbv zeta.
  unfold primary_text in Hnone.
  destruct (ocr_service env key f) as [e|response].
  { exists [fallback_warning]. auto. }
  destruct (status_code response =? 200)%Z.
  - exists [fallback_warning]. split; [auto|].
    destruct (json response) as [e|body]; [reflexivity|].
    destruct (text_field body) as [[| | |text| |]|]; try reflexivity.
    discriminate.
  - exists []. split; [auto|]. rewrite app_nil_r. reflexivity.
Qed.

(** When the primary path extracts a text, the result is its
    normalisation and nothing but the request happened. *)
Lemma extract_primary_text (env : Env) (f : bytes) (key : pystr) (log : list event)
    (text : pystr) :
  secrets env (lit "RAPIDAPI_KEY") = inr key ->
  primary_text (ocr_service env key f) = Some text ->
  extract_text_from_pdf env f log =
  (inr (join (lit " ") (split text)), log ++ [requests_post ocr_url]).
Proof.
  intros Hkey Hprimary.
  rewrite (extract_text_from_pdf_cases env f key log Hkey). cbv zeta.
  unfold primary_text in Hprimary.
  destruct (ocr_service env key f) as [e|response]; [discriminate|].
  destruct (status_code response =? 200)%Z; [|discriminate].
  destruct (json response) as [e|body]; [discriminate|].
  destruct (text_field body) as [[| | |text'| |]|]; try discriminate.
  inversion Hprimary. reflexivity.
Qed.

(** C6: a non-200 answer of the OCR call, and an exception of it, both
    hand the same file to [fallback_extract_text]; what the fallback
    returns for the text of the pages is [" ".join(text.split())], the
    normalisation the primary path applies to its text field. *)
Theorem fallback_on_primary_failure (env : Env) (f : bytes) (key : pystr)
    (log : list event) :
  secrets env (lit "RAPIDAPI_KEY") = inr key ->
  (forall response,
      ocr_service env key f = inr response -> status_code response <> 200%Z ->
      extract_text_from_pdf env f log =
      fallback_extract_text env f (log ++ [requests_post ocr_url]))
  /\ (forall e,
      ocr_service env key f = inl e ->
      extract_text_from_pdf env f log =
      fallback_extract_text env f ((log ++ [requests_post ocr_url]) ++ [fallback_warning]))
  /\ (forall text log0,
      local_text env f = inr text ->
      fallback_extract_text env f log0 =
      (inr (join (lit " ") (split text)), log0 ++ [PyPDF2_PdfReader]))
  /\ (forall text,
      primary_text (ocr_service env key f) = Some text ->
      extract_text_from_pdf env f log =
      (inr (join (lit " ") (split text)), log ++ [requests_post ocr_url])).
Proof.
  intros Hkey. repeat split.
  - intros response Hocr Hstatus.
    rewrite (extract_text_from_pdf_cases env f key log Hkey), Hocr. cbv zeta.
    apply Z.eqb_neq in Hstatus. rewrite Hstatus. reflexivity.
  - intros e Hocr.
    rewrite (extract_text_from_pdf_cases env f key log Hkey), Hocr. reflexivity.
  - intros text log0 Hlocal.
    rewrite fallback_extract_text_cases, Hlocal. reflexivity.
  - intros text Hprimary. apply (extract_primary_text env f key); assumption.
Qed.

Lemma fallback_on_primary_failure_witness :
  let http_500 := Sample.env (Sample.status 500) (inr [inr (lit "Hello   world ")])
                    (Sample.status 404) Work in
  let no_answer := Sample.env (inl Sample.timeout) (inr [inr (lit "Hello   world ")])
                     (Sample.status 404) Work in
  extract_text_from_pdf http_500 Sample.pdf [] =
  fallback_extract_text http_500 Sample.pdf [requests_post ocr_url]
  /\ extract_text_from_pdf no_answer Sample.pdf [] =
     fallback_extract_text no_answer Sample.pdf [requests_post ocr_url; fallback_warning]
  /\ fallback_extract_text http_500 Sample.pdf [requests_post ocr_url] =
     (inr (lit "Hello world"), [requests_post ocr_url; PyPDF2_PdfReader]).
Proof.
  intros http_500 no_answer.
  destruct (fallback_on_primary_failure http_500 Sample.pdf (lit "k-123") []
              eq_refl) as (Hstatus & _ & Hlocal & _).
  destruct (fallback_on_primary_failure no_answer Sample.pdf (lit "k-123") []
              eq_refl) as (_ & Hraise & _ & _).
  split; [|split].
  - apply (Hstatus (Response 500 (inr VNone))); [reflexivity | discriminate].
  - apply (Hraise Sample.timeout). reflexivity.
  - apply (Hlocal (lit "Hello   world ")). reflexivity.
Defined.

(** C7: with the secret held, [extract_text_from_pdf] returns a string on
    every document and every behaviour of the two extractors; when the
    primary path extracts nothing and the fallback raises [e], the string
    is empty and the last thing shown is the error message built from
    [e]. *)
Theorem extract_never_raises (env : Env) (f : bytes) (key : pystr) (log : list event) :
  secrets env (lit "RAPIDAPI_KEY") = inr key ->
  (exists s log', extract_text_from_pdf env f log = (inr s, log'))
  /\ (forall e,
      primary_text (ocr_service env key f) = None ->
      local_text env f = inl e ->
      exists shown,
        extract_text_from_pdf env f log =
        (inr [], (log ++ requests_post ocr_url :: shown)
                 ++ [PyPDF2_PdfReader; extraction_error e])).
Proof.
  intros Hkey. split.
  - destruct (primary_text (ocr_service env key f)) as [text|] eqn:Hprimary.
    + rewrite (extract_primary_text env f key log text Hkey Hprimary). eauto.
    + destruct (extract_falls_back env f key log Hkey Hprimary) as (shown & _ & ->).
      rewrite fallback_extract_text_cases.
      destruct (local_text env f); eauto.
  - intros e Hprimary Hlocal.
    destruct (extract_falls_back env f key log Hkey Hprimary) as (shown & _ & ->).
    rewrite fallback_extract_text_cases, Hlocal.
    exists shown. rewrite <- !app_assoc. reflexivity.
Qed.

Lemma extract_never_raises_witness :
  let both_fail := Sample.env (inl Sample.timeout) (Sample.failure (lit "EOF marker not found"))
                     (Sample.status 404) Work in
  (exists s log', extract_text_from_pdf both_fail Sample.pdf [] = (inr s, log'))
  /\ exists shown,
       extract_text_from_pdf both_fail Sample.pdf [] =
       (inr [], ([] ++ requests_post ocr_url :: shown)
                ++ [PyPDF2_PdfReader;
                    st_error (lit "Error in text extraction: EOF marker not found")]).
Proof.
  intros both_fail.
  destruct (extract_never_raises both_fail Sample.pdf (lit "k-123") [] eq_refl)
    as [Hreturns Hfail].
  split; [exact Hreturns|].
  apply (Hfail (Exn (lit "PdfReadError") (lit "EOF marker not found")));
    reflexivity.
Defined.

(** C10: a 200 answer whose body is a JSON object without a ["text"] key
    makes [extract_text_from_pdf] return the empty string right after the
    request: PyPDF2 is not opened, nothing is shown. *)
Theorem ok_without_text_field (env : Env) (f : bytes) (key : pystr) (log : list event)
    (response : response) (d : list (pystr * pyval)) :
  secrets env (lit "RAPIDAPI_KEY") = inr key ->
  ocr_service env key f = inr response ->
  status_code response = 200%Z ->
  json response = inr (VDict d) ->
  lookup (lit "text") d = None ->
  extract_text_from_pdf env f log = (inr [], log ++ [requests_post ocr_url]).
Proof.
  intros Hkey Hocr Hstatus Hjson Hmissing.
  rewrite (extract_primary_text env f key log [] Hkey); [reflexivity|].
  unfold primary_text, text_field, dict_get.
  rewrite Hocr, Hstatus, Hjson, Hmissing. reflexivity.
Qed.

Lemma ok_without_text_field_witness :
  extract_text_from_pdf
    (Sample.env (Sample.ok (VDict [(lit "pages", VInt 2)]))
       (inr [inr (lit "Hello")]) (Sample.status 404) Work)
    Sample.pdf [] =
  (inr [], [requests_post ocr_url]).
Proof.
  apply (ok_without_text_field _ Sample.pdf (lit "k-123") []
           (Response 200 (inr (VDict [(lit "pages", VInt 2)])))
           [(lit "pages", VInt 2)]);
    reflexivity.
Defined.

(** C8: on a non-200 answer of the OCR call the run reaches the fallback
    without a warning: the warnings of the log are those it held before.
    (An exception of the call does add the warning.) *)
Theorem no_warning_on_http_error (env : Env) (f : bytes) (key : pystr)
    (log : list event) (response : response) :
  secrets env (lit "RAPIDAPI_KEY") = inr key ->
  ocr_service env key f = inr response ->
  status_code response <> 200%Z ->
  filter is_warning (snd (extract_text_from_pdf env f log)) = filter is_warning log.
Proof.
  intros Hkey Hocr Hstatus.
  rewrite (extract_text_from_pdf_cases env f key log Hkey), Hocr. cbv zeta.
  apply Z.eqb_neq in Hstatus. rewrite Hstatus.
  rewrite fallback_extract_text_cases.
  destruct (local_text env f) as [e|text]; simpl;
    rewrite !filter_app; simpl; rewrite !app_nil_r; reflexivity.
Qed.

Lemma no_warning_on_http_error_witness :
  let http_500 := Sample.env (Sample.status 500) (inr [inr (lit "Hello   world ")])
                    (Sample.status 404) Work in
  extract_text_from_pdf http_500 Sample.pdf [] =
  (inr (lit "Hello world"), [requests_post ocr_url; PyPDF2_PdfReader])
  /\ filter is_warning (snd (extract_text_from_pdf http_500 Sample.pdf [])) = [].
Proof.
  intros http_500. split; [reflexivity|].
  apply (no_warning_on_http_error http_500 Sample.pdf (lit "k-123") []
           (Response 500 (inr VNone)));
    [reflexivity | reflexivity | discriminate].
Defined.

(** ** The roadmap client *)

(** The run of [call_visa_roadmap_api], branch by branch. *)
Lemma call_visa_roadmap_api_cases (env : Env) (text roadmap_type info : pystr)
    (log : list event) :
  call_visa_roadmap_api env text roadmap_type info log =
  let sent := log ++ [requests_post roadmap_url] in
  match roadmap_service env text roadmap_type info with
  | inl e => (inr VNone, sent ++ [st_error (lit "API Error: " ++ exn_str e)])
  | inr response =>
      if (status_code response =? 200)%Z
      then match json response with
           | inl e => (inr VNone, sent ++ [st_error (lit "API Error: " ++ exn_str e)])
           | inr body => (inr body, sent)
           end
      else if (status_code response =? 404)%Z
      then (inr VNone,
            sent ++ [st_error (lit "API Error: Data Not Found ("
                               ++ str_of_int (status_code response) ++ lit ")")])
      else (inr VNone,
            sent ++ [st_error (lit "API Error: " ++ str_of_int (status_code response))])
  end.
Proof.
  unfold call_visa_roadmap_api. run.
  destruct (roadmap_service env text roadmap_type info) as [e|response]; [reflexivity|].
  destruct (status_code response =? 200)%Z.
  - destruct (json response); reflexivity.
  - destruct (status_code response =? 404)%Z; reflexivity.
Qed.

(** C5: [call_visa_roadmap_api] returns the parsed body on status 200 and
    [None] in every other case: after "API Error: Data Not Found (404)" on
    404, after "API Error: <code>" on any other status, and after
    "API Error: <message>" when the request, or the parsing of a 200 body,
    raises. *)
Theorem call_visa_roadmap_api_outcomes (env : Env) (text roadmap_type info : pystr)
    (log : list event) :
  let call := call_visa_roadmap_api env text roadmap_type info log in
  let answer := roadmap_service env text roadmap_type info in
  let sent := log ++ [requests_post roadmap_url] in
  (forall response body,
      answer = inr response -> status_code response = 200%Z ->
      json response = inr body ->
      call = (inr body, sent))
  /\ (forall response,
      answer = inr response -> status_code response = 404%Z ->
      call = (inr VNone, sent ++ [st_error (lit "API Error: Data Not Found (404)")]))
  /\ (forall response,
      answer = inr response ->
      status_code response <> 200%Z -> status_code response <> 404%Z ->
      call = (inr VNone,
              sent ++ [st_error (lit "API Error: " ++ str_of_int (status_code response))]))
  /\ (forall e,
      answer = inl e
      \/ (exists response,
            answer = inr response /\ status_code response = 200%Z
            /\ json response = inl e) ->
      call = (inr VNone, sent ++ [st_error (lit "API Error: " ++ exn_str e)])).
Proof.
  intros call answer sent. subst call answer sent.
  rewrite call_visa_roadmap_api_cases. cbv zeta.
  repeat split.
  - intros response body -> -> ->. reflexivity.
  - intros response -> ->. reflexivity.
  - intros response -> H200 H404.
    apply Z.eqb_neq in H200, H404. rewrite H200, H404. reflexivity.
  - intros e [-> | (response & -> & -> & ->)]; reflexivity.
Qed.

Lemma call_visa_roadmap_api_outcomes_witness :
  let text := lit "age 29 job developer" in
  let ask answer :=
    call_visa_roadmap_api (Sample.env Sample.ocr_text (inr []) answer Work)
      text (label Work) [] [] in
  let sent := [requests_post roadmap_url] in
  ask (Sample.ok (VStr Sample.express_entry)) = (inr (VStr Sample.express_entry), sent)
  /\ ask (Sample.status 404) =
     (inr VNone, sent ++ [st_error (lit "API Error: Data Not Found (404)")])
  /\ ask (Sample.status 503) = (inr VNone, sent ++ [st_error (lit "API Error: 503")])
  /\ ask (inl Sample.timeout) = (inr VNone, sent ++ [st_error (lit "API Error: timed out")]).
Proof.
  intros text ask sent.
  pose proof (fun answer =>
    call_visa_roadmap_api_outcomes (Sample.env Sample.ocr_text (inr []) answer Work)
      text (label Work) [] []) as H.
  split; [|split; [|split]].
  - destruct (H (Sample.ok (VStr Sample.express_entry))) as (H200 & _).
    apply (H200 (Response 200 (inr (VStr Sample.express_entry)))); reflexivity.
  - destruct (H (Sample.status 404)) as (_ & H404 & _).
    apply (H404 (Response 404 (inr VNone))); reflexivity.
  - destruct (H (Sample.status 503)) as (_ & _ & Hother & _).
    apply (Hother (Response 503 (inr VNone))); [reflexivity | discriminate | discriminate].
  - destruct (H (inl Sample.timeout)) as (_ & _ & _ & Hraise).
    apply (Hraise Sample.timeout). left. reflexivity.
Defined.

(** ** What a computation adds to the log *)

Section Appends.

Context {A B : Type} (P : event -> Prop).

Lemma appends_ret (a : A) : appends P (ret a).
Proof. intros log. exists []. rewrite app_nil_r. auto. Qed.

Lemma appends_raise (e : exn) : appends P (raise e : M A).
Proof. intros log. exists []. rewrite app_nil_r. auto. Qed.

Lemma appends_lift (r : result A) : appends P (lift r).
Proof. intros log. exists []. rewrite app_nil_r. auto. Qed.

Lemma appends_emit (ev : event) : P ev -> appends P (emit ev).
Proof. intros H log. exists [ev]. auto. Qed.

Lemma appends_bind (m : M A) (k : A -> M B) :
  appends P m -> (forall a, appends P (k a)) -> appends P (bind m k).
Proof.
  intros Hm Hk log. unfold bind.
  destruct (Hm log) as (added & Hlog & Hadded).
  destruct (m log) as [[e|a] log1]; simpl in Hlog; subst log1.
  - exists added. auto.
  - destruct (Hk a (log ++ added)) as (added' & Hlog' & Hadded').
    exists (added ++ added'). rewrite Hlog', app_assoc.
    split; [reflexivity | apply Forall_app; auto].
Qed.

Lemma appends_try_except (body : M A) (handler : exn -> M A) :
  appends P body -> (forall e, appends P (handler e)) ->
  appends P (try_except body handler).
Proof.
  intros Hbody Hhandler log. unfold try_except.
  destruct (Hbody log) as (added & Hlog & Hadded).
  destruct (body log) as [[e|a] log1]; simpl in Hlog; subst log1.
  - destruct (Hhandler e (log ++ added)) as (added' & Hlog' & Hadded').
    exists (added ++ added'). rewrite Hlog', app_assoc.
    split; [reflexivity | apply Forall_app; auto].
  - exists added. auto.
Qed.

End Appends.

Lemma appends_when (P : event -> Prop) (c : bool) (m : M unit) :
  appends P m -> appends P (when c m).
Proof. destruct c; [auto | intros _; apply appends_ret]. Qed.

Lemma appends_for_each {A} (P : event -> Prop) (items : list A) (body : A -> M unit) :
  (forall x, appends P (body x)) -> appends P (for_each items body).
Proof.
  intros Hbody. induction items as [|x rest IH]; simpl.
  - apply appends_ret.
  - apply appends_bind; auto.
Qed.

Lemma appends_if {A} (P : event -> Prop) (c : bool) (m1 m2 : M A) :
  appends P m1 -> appends P m2 -> appends P (if c then m1 else m2).
Proof. destruct c; auto. Qed.

(** Breaks a computation of the script into its steps; what is left are
    the events it shows, to be checked against [P], and calls of the
    functions of the script. *)
Ltac appends_step :=
  first
    [ apply appends_bind; [|intros ?]
    | apply appends_try_except; [|intros ?]
    | apply appends_when
    | apply appends_if
    | apply appends_for_each; intros ?
    | apply appends_ret
    | apply appends_raise
    | apply appends_lift
    | apply appends_emit ].

Lemma fallback_extract_text_appends (P : event -> Prop) (env : Env) (f : bytes) :
  P PyPDF2_PdfReader -> (forall e, P (extraction_error e)) ->
  appends P (fallback_extract_text env f).
Proof.
  intros Hreader Herror. unfold fallback_extract_text.
  repeat appends_step; auto.
Qed.

Lemma py_get_appends (P : event -> Prop) (v : pyval) (key : pystr) (default : pyval) :
  appends P (py_get v key default).
Proof. destruct v; simpl; appends_step. Qed.

Lemma py_getitem_appends (P : event -> Prop) (v : pyval) (key : pystr) :
  appends P (py_getitem v key).
Proof.
  destruct v; simpl; try appends_step.
  destruct (lookup key entries); appends_step.
Qed.

Lemma py_split_appends (P : event -> Prop) (v : pyval) : appends P (py_split v).
Proof. destruct v; simpl; appends_step. Qed.

Lemma py_iter_appends (P : event -> Prop) (v : pyval) : appends P (py_iter v).
Proof. destruct v; simpl; appends_step. Qed.

Lemma extract_text_from_pdf_appends (P : event -> Prop) (env : Env) (f : bytes) :
  P (requests_post ocr_url) -> P fallback_warning ->
  P PyPDF2_PdfReader -> (forall e, P (extraction_error e)) ->
  appends P (extract_text_from_pdf env f).
Proof.
  intros Hpost Hwarning Hreader Herror. unfold extract_text_from_pdf.
  repeat first
    [ apply fallback_extract_text_appends
    | apply py_get_appends
    | apply py_split_appends
    | appends_step ]; auto.
Qed.

Lemma call_visa_roadmap_api_appends (P : event -> Prop) (env : Env)
    (text roadmap_type info : pystr) :
  P (requests_post roadmap_url) -> (forall body, P (st_error body)) ->
  appends P (call_visa_roadmap_api env text roadmap_type info).
Proof.
  intros Hpost Herror. unfold call_visa_roadmap_api.
  repeat appends_step; auto.
Qed.

Lemma extract_and_preview_appends (P : event -> Prop) (env : Env) (f : bytes) :
  P (requests_post ocr_url) -> P fallback_warning ->
  P PyPDF2_PdfReader -> (forall e, P (extraction_error e)) ->
  (forall body, P (st_spinner body)) -> (forall body, P (st_success body)) ->
  P (st_expander (lit "Preview extracted text") false) ->
  (forall body, P (st_text body)) ->
  appends P (extract_and_preview env f).
Proof.
  intros. unfold extract_and_preview.
  repeat first [ apply extract_text_from_pdf_appends | appends_step ]; auto.
Qed.

(** ** The gate in front of the renderer *)

Lemma filter_appended (p : event -> bool) (log added : list event) :
  Forall (fun ev => p ev = false) added -> filter p (log ++ added) = filter p log.
Proof.
  intros H. rewrite filter_app.
  replace (filter p added) with (@nil event); [apply app_nil_r|].
  induction H as [|ev rest Hev _ IH]; simpl; [reflexivity|].
  rewrite Hev. exact IH.
Qed.

(** Up to the answer of the roadmap service a block shows no part of a
    report. *)
Lemma no_report_before_answer (env : Env) (roadmap_type : pystr) (f : bytes) :
  appends (fun ev => is_report ev = false)
    (extracted_text <- extract_and_preview env f ;;
     emit (st_button (lit "Generate")) ;;
     emit (st_spinner (lit "Processing...")) ;;
     call_visa_roadmap_api env extracted_text roadmap_type (text_area env))%monad.
Proof.
  repeat first
    [ apply extract_and_preview_appends
    | apply call_visa_roadmap_api_appends
    | appends_step ];
    intros; reflexivity.
Qed.

(** C9: in a run where "Generate" was clicked and [call_visa_roadmap_api]
    returned [None], both blocks end right there, with the log the client
    left: no title, section, content or download button of a report has
    been added to the page. *)
Theorem null_result_renders_nothing (container_str : pyval -> pystr) (env : Env)
    (roadmap_type : pystr) (f : bytes) (log log1 log2 : list event) (text : pystr) :
  button_clicked env = true ->
  extract_and_preview env f log = (inr text, log1) ->
  call_visa_roadmap_api env text roadmap_type (text_area env)
    (log1 ++ [st_button (lit "Generate"); st_spinner (lit "Processing...")])
  = (inr VNone, log2) ->
  immigration_block container_str env roadmap_type f log = (inr tt, log2)
  /\ other_block container_str env roadmap_type f log = (inr tt, log2)
  /\ filter is_report log2 = filter is_report log
  /\ offered_files log2 = offered_files log.
Proof.
  intros Hclicked Hextract Hcall.
  assert (Hblocks :
    immigration_block container_str env roadmap_type f log = (inr tt, log2)
    /\ other_block container_str env roadmap_type f log = (inr tt, log2)).
  { split; [unfold immigration_block | unfold other_block];
      run; rewrite Hextract, Hclicked; simpl;
      rewrite <- !app_assoc; simpl; rewrite Hcall; reflexivity. }
  destruct Hblocks as [Himm Hother].
  destruct (no_report_before_answer env roadmap_type f log) as (added & Hlog & Hadded).
  revert Hlog. run. rewrite Hextract. simpl. rewrite <- !app_assoc. simpl.
  rewrite Hcall. simpl. intros ->.
  repeat split; try assumption.
  - apply filter_appended, Hadded.
  - clear - Hadded. induction log as [|ev log IH]; simpl.
    + induction Hadded as [|ev rest Hev _ IH]; [reflexivity|].
      simpl. destruct ev; try discriminate; exact IH.
    + rewrite IH. reflexivity.
Qed.

Lemma null_result_renders_nothing_witness :
  let not_found := Sample.env Sample.ocr_text (inr []) (Sample.status 404) Study in
  let run := other_block Sample.container_str not_found (label Study) Sample.pdf [] in
  fst run = inr tt
  /\ filter is_error (snd run) = [st_error (lit "API Error: Data Not Found (404)")]
  /\ filter is_report (snd run) = []
  /\ offered_files (snd run) = [].
Proof.
  intros not_found run.
  edestruct (null_result_renders_nothing Sample.container_str not_found (label Study)
               Sample.pdf []) as (_ & Hother & Hreport & Hfiles).
  - reflexivity.
  - reflexivity.
  - reflexivity.
  - subst run. rewrite Hother. simpl fst. simpl snd.
    split; [reflexivity|]. split; [reflexivity|].
    split; [exact Hreport | exact Hfiles].
Defined.

(** ** The downloadable rendering *)

(** A block that got a truthy answer [result] and a PDF for it: the
    non-Immigration block shows the answer as one roadmap and offers the
    PDF of [create_pdf_content]. *)
Lemma other_block_success (container_str : pyval -> pystr) (env : Env)
    (roadmap_type : pystr) (f : bytes) (log log1 log2 : list event) (text : pystr)
    (result : pyval) (pdf_output : bytes) :
  button_clicked env = true ->
  extract_and_preview env f log = (inr text, log1) ->
  call_visa_roadmap_api env text roadmap_type (text_area env)
    (log1 ++ [st_button (lit "Generate"); st_spinner (lit "Processing...")])
  = (inr result, log2) ->
  truthy result = true ->
  markdown_pdf env (create_pdf_content container_str roadmap_type result) = inr pdf_output ->
  other_block container_str env roadmap_type f log =
  (inr tt,
   log2 ++ [st_subheader (lit "Your " ++ roadmap_type ++ lit " Roadmap");
            st_expander (lit "Roadmap") true;
            st_markdown result;
            st_download_button (lit "Download Roadmap as PDF") pdf_output
              (lower roadmap_type ++ lit "_roadmap.pdf") (lit "application/pdf")]).
Proof.
  intros Hclicked Hextract Hcall Htruthy Hpdf.
  unfold other_block, offer_download. run.
  rewrite Hextract, Hclicked. simpl.
  rewrite <- !app_assoc. simpl. rewrite Hcall, Htruthy, Hpdf.
  rewrite <- !app_assoc. reflexivity.
Qed.

(** C1, as the code has it: for a string answer [s] the content of the
    download is the heading "# <roadmap_type> Roadmap", a blank line and
    [s], where [roadmap_type] is the selected option string ("Work Visa",
    not "Work"); and in a run of the non-Immigration block that got a
    non-empty [s], the file behind the download button is the PDF of
    exactly that content. *)
Theorem string_result_pdf_content (container_str : pyval -> pystr) :
  (forall c s,
      create_pdf_content container_str (label c) (VStr s) =
      lit "# " ++ label c ++ lit " Roadmap" ++ [nl; nl] ++ s)
  /\ (forall env c f log log1 log2 text s pdf_output,
      button_clicked env = true ->
      extract_and_preview env f log = (inr text, log1) ->
      call_visa_roadmap_api env text (label c) (text_area env)
        (log1 ++ [st_button (lit "Generate"); st_spinner (lit "Processing...")])
      = (inr (VStr s), log2) ->
      s <> [] ->
      markdown_pdf env (lit "# " ++ label c ++ lit " Roadmap" ++ [nl; nl] ++ s)
      = inr pdf_output ->
      exists shown,
        other_block container_str env (label c) f log =
        (inr tt,
         log2 ++ shown
              ++ [st_download_button (lit "Download Roadmap as PDF") pdf_output
                    (lower (label c) ++ lit "_roadmap.pdf") (lit "application/pdf")])).
Proof.
  assert (Hcontent : forall c s,
    create_pdf_content container_str (label c) (VStr s) =
    lit "# " ++ label c ++ lit " Roadmap" ++ [nl; nl] ++ s).
  { intros c s. unfold create_pdf_content, format_value. reflexivity. }
  split; [exact Hcontent|].
  intros env c f log log1 log2 text s pdf_output Hclicked Hextract Hcall Hs Hpdf.
  rewrite <- Hcontent in Hpdf.
  exists [st_subheader (lit "Your " ++ label c ++ lit " Roadmap");
          st_expander (lit "Roadmap") true; st_markdown (VStr s)].
  apply (other_block_success container_str env (label c) f log log1 log2 text);
    try assumption.
  destruct s; [congruence | reflexivity].
Qed.

Lemma string_result_pdf_content_witness :
  let answered := Sample.env Sample.ocr_text (inr []) (Sample.ok (VStr Sample.express_entry))
                    Work in
  create_pdf_content Sample.container_str (label Work) (VStr Sample.express_entry) =
  lit "# Work Visa Roadmap" ++ [nl; nl] ++ lit "Apply via Express Entry..."
  /\ exists log,
       other_block Sample.container_str answered (label Work) Sample.pdf [] =
       (inr tt,
        log ++ [st_download_button (lit "Download Roadmap as PDF") Sample.pdf
                  (lit "work visa_roadmap.pdf") (lit "application/pdf")]).
Proof.
  intros answered.
  destruct (string_result_pdf_content Sample.container_str) as [Hcontent Hblock].
  split; [apply (Hcontent Work Sample.express_entry)|].
  edestruct (Hblock answered Work Sample.pdf []) as (shown & Hrun).
  - reflexivity.
  - reflexivity.
  - reflexivity.
  - discriminate.
  - reflexivity.
  - rewrite Hrun, app_assoc. eexists. reflexivity.
Defined.

(** The claim as the spec words it fails on its own example: the heading
    for the selection Work is not "# Work Roadmap". *)
Lemma work_roadmap_heading_counterexample :
  create_pdf_content Sample.container_str (label Work) (VStr (lit "Apply via Express Entry..."))
  <> lit "# Work Roadmap" ++ [nl; nl] ++ lit "Apply via Express Entry...".
Proof. vm_compute. discriminate. Qed.

(** ** The name of the download *)

Lemma names_file_other (name : pystr) (ev : event) :
  file_name_of ev = None -> names_file name ev.
Proof. intros H file_name. rewrite H. discriminate. Qed.

Ltac no_file := intros; apply names_file_other; reflexivity.

Lemma offer_download_appends (container_str : pyval -> pystr) (env : Env)
    (roadmap_type : pystr) (result : pyval) (file_name : pystr) :
  appends (names_file file_name)
    (offer_download container_str env roadmap_type result file_name).
Proof.
  unfold offer_download. repeat appends_step.
  intros name H. inversion H. reflexivity.
Qed.

Lemma before_answer_names_no_file (name : pystr) (env : Env) (roadmap_type text : pystr)
    (f : bytes) :
  appends (names_file name) (extract_and_preview env f)
  /\ appends (names_file name)
       (call_visa_roadmap_api env text roadmap_type (text_area env)).
Proof.
  split.
  - apply extract_and_preview_appends; no_file.
  - apply call_visa_roadmap_api_appends; no_file.
Qed.

Lemma immigration_block_appends (container_str : pyval -> pystr) (env : Env)
    (roadmap_type : pystr) (f : bytes) :
  appends (names_file (lit "immigration_roadmap.pdf"))
    (immigration_block container_str env roadmap_type f).
Proof.
  unfold immigration_block.
  repeat first
    [ apply offer_download_appends
    | apply py_getitem_appends
    | apply py_iter_appends
    | apply (proj1 (before_answer_names_no_file _ env roadmap_type [] f))
    | apply (proj2 (before_answer_names_no_file _ env roadmap_type _ f))
    | appends_step ];
    no_file.
Qed.

Lemma other_block_appends (container_str : pyval -> pystr) (env : Env)
    (roadmap_type : pystr) (f : bytes) :
  appends (names_file (lower roadmap_type ++ lit "_roadmap.pdf"))
    (other_block container_str env roadmap_type f).
Proof.
  unfold other_block.
  repeat first
    [ apply offer_download_appends
    | apply (proj1 (before_answer_names_no_file _ env roadmap_type [] f))
    | apply (proj2 (before_answer_names_no_file _ env roadmap_type _ f))
    | appends_step ];
    no_file.
Qed.

Lemma offered_files_app (log added : list event) :
  offered_files (log ++ added) = offered_files log ++ offered_files added.
Proof.
  induction log as [|ev log IH]; simpl; [reflexivity|].
  destruct (file_name_of ev); simpl; rewrite IH; reflexivity.
Qed.

Lemma offered_files_named (name : pystr) (added : list event) :
  Forall (names_file name) added -> Forall (eq name) (offered_files added).
Proof.
  induction 1 as [|ev rest Hev _ IH]; simpl; [constructor|].
  destruct (file_name_of ev) as [file_name|] eqn:E; [|exact IH].
  constructor; [symmetry; apply Hev; exact E | exact IH].
Qed.

(** Which option string is the Immigration one. *)
Lemma label_is_immigration (c : RoadmapCategory) :
  PyStr.eqb (label c) (lit "Immigration Visa") =
  match c with Immigration => true | _ => false end.
Proof. destruct c; vm_compute; reflexivity. Qed.

(** C2, as the code has it: whatever a run of the page adds to the log,
    every download button in it names the file after the selection [c]:
    "immigration_roadmap.pdf" for Immigration, and for the others the
    lower-cased option string with "_roadmap.pdf", which keeps the word
    "visa" and its space: "study visa_roadmap.pdf",
    "travel visa_roadmap.pdf", "work visa_roadmap.pdf". *)
Theorem download_file_name (container_str : pyval -> pystr) (env : Env)
    (c : RoadmapCategory) (log : list event) :
  selectbox env = Some c ->
  (exists added,
      snd (main container_str env log) = log ++ added
      /\ Forall (eq (roadmap_file_name c)) (offered_files added))
  /\ map roadmap_file_name [Immigration; Study; Travel; Work] =
     [lit "immigration_roadmap.pdf"; lit "study visa_roadmap.pdf";
      lit "travel visa_roadmap.pdf"; lit "work visa_roadmap.pdf"].
Proof.
  intros Hc. split; [|reflexivity].
  assert (H : appends (names_file (roadmap_file_name c)) (main container_str env)).
  { unfold main. rewrite Hc. cbn [option_map].
    destruct (secrets env (lit "RAPIDAPI_KEY")) as [e|key];
      [appends_step; no_file|].
    destruct (file_uploader env) as [f|]; [|appends_step].
    rewrite label_is_immigration.
    destruct c; cbn [negb when roadmap_file_name].
    - apply appends_bind; [apply immigration_block_appends | intros _; apply appends_ret].
    - apply appends_bind;
        [apply appends_ret | intros _; apply (other_block_appends container_str env (label Study))].
    - apply appends_bind;
        [apply appends_ret | intros _; apply (other_block_appends container_str env (label Travel))].
    - apply appends_bind;
        [apply appends_ret | intros _; apply (other_block_appends container_str env (label Work))]. }
  destruct (H log) as (added & Hlog & Hadded).
  exists added. split; [exact Hlog|].
  apply offered_files_named, Hadded.
Qed.

Lemma download_file_name_witness :
  let work := Sample.env Sample.ocr_text (inr []) (Sample.ok (VStr Sample.express_entry))
                Work in
  let immigration := Sample.env Sample.ocr_text (inr []) (Sample.ok Sample.full_report)
                       Immigration in
  offered_files (snd (main Sample.container_str work [])) = [lit "work visa_roadmap.pdf"]
  /\ offered_files (snd (main Sample.container_str immigration [])) =
     [lit "immigration_roadmap.pdf"]
  /\ Forall (eq (roadmap_file_name Work))
       (offered_files (snd (main Sample.container_str work []))).
Proof.
  intros work immigration.
  destruct (download_file_name Sample.container_str work Work [] eq_refl)
    as ((added & Hlog & Hnamed) & _).
  simpl app in Hlog. rewrite Hlog.
  split; [rewrite <- Hlog; reflexivity|].
  split; [reflexivity | exact Hnamed].
Defined.

(** The claim as the spec words it fails on its own example: the run for
    the selection Work that renders a report offers one file, and its name
    is not "work_roadmap.pdf". *)
Lemma work_file_name_counterexample :
  let work := Sample.env Sample.ocr_text (inr []) (Sample.ok (VStr Sample.express_entry))
                Work in
  offered_files (snd (main Sample.container_str work [])) = [lit "work visa_roadmap.pdf"]
  /\ ~ In (lit "work_roadmap.pdf") (offered_files (snd (main Sample.container_str work []))).
Proof.
  intros work. split; [reflexivity|].
  intros [H|[]]. revert H. vm_compute. discriminate.
Qed.

(** ** The Immigration display *)

(** The equations of the monad, to run a computation step by step. *)
Lemma bind_ret {A B} (a : A) (k : A -> M B) (log : list event) :
  bind (ret a) k log = k a log.
Proof. reflexivity. Qed.

Lemma bind_raise {A B} (e : exn) (k : A -> M B) (log : list event) :
  bind (raise e) k log = (inl e, log).
Proof. reflexivity. Qed.

Lemma bind_emit {B} (ev : event) (k : unit -> M B) (log : list event) :
  bind (emit ev) k log = k tt (log ++ [ev]).
Proof. reflexivity. Qed.

Lemma bind_lift {A B} (a : A) (k : A -> M B) (log : list event) :
  bind (lift (inr a)) k log = k a log.
Proof. reflexivity. Qed.

Lemma bind_run {A B} (m : M A) (k : A -> M B) (log log' : list event) (a : A) :
  m log = (inr a, log') -> bind m k log = k a log'.
Proof. intros H. unfold bind. rewrite H. reflexivity. Qed.

Ltac steps :=
  repeat (first [ rewrite bind_emit | rewrite bind_ret | rewrite bind_raise
                | rewrite bind_lift ];
          cbv beta iota).

Lemma for_each_noc_codes (codes : list pyval) (log : list event) :
  for_each codes
    (fun noc => emit (st_markdown noc) ;; emit (st_markdown (VStr (lit "---"))))%monad
    log
  = (inr tt, log ++ noc_events codes).
Proof.
  revert log. induction codes as [|noc rest IH]; intros log.
  - simpl. unfold ret. rewrite app_nil_r. reflexivity.
  - change (noc_events (noc :: rest))
      with ([st_markdown noc; st_markdown (VStr (lit "---"))] ++ noc_events rest).
    simpl for_each. rewrite (bind_run _ _ log (log ++ [st_markdown noc;
                                                     st_markdown (VStr (lit "---"))]) tt).
    + rewrite IH, app_assoc. reflexivity.
    + steps. unfold emit. rewrite <- app_assoc. reflexivity.
Qed.

(** A block up to the answer of the roadmap service. *)
Lemma block_until_answer (env : Env) (roadmap_type : pystr) (f : bytes)
    (log log1 log2 : list event) (text : pystr) (result : pyval)
    (render : pyval -> M unit) :
  button_clicked env = true ->
  extract_and_preview env f log = (inr text, log1) ->
  call_visa_roadmap_api env text roadmap_type (text_area env)
    (log1 ++ [st_button (lit "Generate"); st_spinner (lit "Processing...")])
  = (inr result, log2) ->
  (extracted_text <- extract_and_preview env f ;;
   emit (st_button (lit "Generate")) ;;
   when (button_clicked env)
     (emit (st_spinner (lit "Processing...")) ;;
      result <- call_visa_roadmap_api env extracted_text roadmap_type (text_area env) ;;
      render result))%monad log
  = render result log2.
Proof.
  intros Hclicked Hextract Hcall.
  rewrite (bind_run _ _ _ _ _ Hextract), bind_emit, Hclicked.
  unfold when. rewrite bind_emit, <- app_assoc.
  apply bind_run. exact Hcall.
Qed.

(** With the four fields it reads in the answer, the block shows four
    sections (roadmap, CRS score, job roles, NOC codes) and offers the
    download; the questionnaire is not shown. *)
Lemma immigration_block_success (container_str : pyval -> pystr) (env : Env)
    (roadmap_type : pystr) (f : bytes) (log log1 log2 : list event) (text : pystr)
    (d : list (pystr * pyval)) (roadmap crs_score job_roles : pyval)
    (codes : list pyval) (pdf_output : bytes) :
  button_clicked env = true ->
  extract_and_preview env f log = (inr text, log1) ->
  call_visa_roadmap_api env text roadmap_type (text_area env)
    (log1 ++ [st_button (lit "Generate"); st_spinner (lit "Processing...")])
  = (inr (VDict d), log2) ->
  lookup (lit "roadmap") d = Some roadmap ->
  lookup (lit "crs_score") d = Some crs_score ->
  lookup (lit "job_roles") d = Some job_roles ->
  lookup (lit "noc_codes") d = Some (VList codes) ->
  markdown_pdf env (create_pdf_content container_str roadmap_type (VDict d))
  = inr pdf_output ->
  immigration_block container_str env roadmap_type f log =
  (inr tt,
   log2 ++ [st_subheader (lit "Your Immigration Roadmap");
            st_expander (lit "Roadmap") true; st_markdown roadmap;
            st_expander (lit "CRS Score Details") false; st_markdown crs_score;
            st_expander (lit "Eligible Job Roles") false; st_markdown job_roles;
            st_expander (lit "NOC Codes") false]
        ++ noc_events codes
        ++ [st_download_button (lit "Download Roadmap as PDF") pdf_output
              (lit "immigration_roadmap.pdf") (lit "application/pdf")]).
Proof.
  intros Hclicked Hextract Hcall Hroadmap Hcrs Hjobs Hnoc Hpdf.
  assert (Htruthy : truthy (VDict d) = true).
  { destruct d; [discriminate Hroadmap | reflexivity]. }
  unfold immigration_block.
  rewrite (block_until_answer env roadmap_type f log log1 log2 text (VDict d) _
             Hclicked Hextract Hcall).
  rewrite Htruthy. unfold when, py_getitem, py_iter, offer_download.
  rewrite Hroadmap, Hcrs, Hjobs, Hnoc. steps.
  rewrite (bind_run _ _ _ _ _ (for_each_noc_codes codes _)).
  cbv zeta. rewrite Hpdf. steps. unfold emit.
  rewrite <- !app_assoc. reflexivity.
Qed.

Ltac raises_key_error H :=
  eexists; split;
  [ simpl; auto
  | split;
    [ exact H
    | split; [steps; rewrite <- ?app_assoc; reflexivity | reflexivity] ] ].

(** C3, where the code departs from it: an answer that is a non-empty
    mapping without one of the four fields the block reads makes the block
    raise [KeyError] for the first of them that is missing; nothing is
    substituted, the sections after it are not shown and no download is
    offered. *)
Theorem missing_field_raises (container_str : pyval -> pystr) (env : Env)
    (roadmap_type : pystr) (f : bytes) (log log1 log2 : list event) (text : pystr)
    (d : list (pystr * pyval)) :
  button_clicked env = true ->
  extract_and_preview env f log = (inr text, log1) ->
  call_visa_roadmap_api env text roadmap_type (text_area env)
    (log1 ++ [st_button (lit "Generate"); st_spinner (lit "Processing...")])
  = (inr (VDict d), log2) ->
  d <> [] ->
  (exists key, In key report_keys /\ lookup key d = None) ->
  exists key shown,
    In key report_keys /\ lookup key d = None
    /\ immigration_block container_str env roadmap_type f log
       = (inl (KeyError key), log2 ++ shown)
    /\ offered_files shown = [].
Proof.
  intros Hclicked Hextract Hcall Hd (missing & Hin & Hmissing).
  assert (Htruthy : truthy (VDict d) = true).
  { destruct d; [congruence | reflexivity]. }
  unfold immigration_block.
  rewrite (block_until_answer env roadmap_type f log log1 log2 text (VDict d) _
             Hclicked Hextract Hcall).
  rewrite Htruthy. unfold when, py_getitem.
  destruct (lookup (lit "roadmap") d) as [roadmap|] eqn:Hroadmap.
  2:{ exists (lit "roadmap"). raises_key_error Hroadmap. }
  destruct (lookup (lit "crs_score") d) as [crs_score|] eqn:Hcrs.
  2:{ exists (lit "crs_score"). raises_key_error Hcrs. }
  destruct (lookup (lit "job_roles") d) as [job_roles|] eqn:Hjobs.
  2:{ exists (lit "job_roles"). raises_key_error Hjobs. }
  destruct (lookup (lit "noc_codes") d) as [noc_codes|] eqn:Hnoc.
  2:{ exists (lit "noc_codes"). raises_key_error Hnoc. }
  exfalso. simpl in Hin.
  destruct Hin as [<-|[<-|[<-|[<-|[]]]]]; congruence.
Qed.

Lemma missing_field_raises_witness :
  let partial := Sample.env Sample.ocr_text (inr []) (Sample.ok Sample.roadmap_only)
                   Immigration in
  exists key log shown,
    In key report_keys
    /\ immigration_block Sample.container_str partial (label Immigration) Sample.pdf []
       = (inl (KeyError key), log ++ shown)
    /\ offered_files shown = [].
Proof.
  intros partial.
  edestruct (missing_field_raises Sample.container_str partial (label Immigration)
               Sample.pdf [])
    as (key & shown & Hin & _ & Hrun & Hfiles).
  - reflexivity.
  - reflexivity.
  - reflexivity.
  - discriminate.
  - exists (lit "crs_score"). split; [simpl; auto | reflexivity].
  - exists key. eexists. exists shown. split; [exact Hin|].
    split; [exact Hrun | exact Hfiles].
Defined.

(** The run of the page on an answer that holds the roadmap only: the
    roadmap section is shown, the CRS section is opened, and the run ends
    in [KeyError: 'crs_score']. *)
Lemma roadmap_only_run :
  let partial := Sample.env Sample.ocr_text (inr []) (Sample.ok Sample.roadmap_only)
                   Immigration in
  let run := main Sample.container_str partial [] in
  fst run = inl (KeyError (lit "crs_score"))
  /\ filter is_report (snd run) =
     [st_subheader (lit "Your Immigration Roadmap");
      st_expander (lit "Roadmap") true; st_markdown (VStr (lit "Step 1"));
      st_expander (lit "CRS Score Details") false]
  /\ offered_files (snd run) = [].
Proof. vm_compute. auto. Qed.

(** *** [convert_dict_to_markdown], which no path of the script calls *)

Lemma append_questionnaire_app (content : list pystr) (pieces : list pystr) :
  append_questionnaire content pieces = content ++ append_questionnaire [] pieces.
Proof.
  revert content. induction pieces as [|line rest IH]; intros content; simpl.
  - rewrite app_nil_r. reflexivity.
  - destruct (strip line) as [|c stripped].
    + apply IH.
    + rewrite IH, (IH [_]), app_assoc. reflexivity.
Qed.

Lemma append_noc_codes_strs (content : list pystr) (codes : list pystr)
    (log : list event) :
  append_noc_codes content (map VStr codes) log =
  (inr (content ++ map (fun noc => lit "- " ++ strip noc ++ [nl]) codes), log).
Proof.
  revert content. induction codes as [|noc rest IH]; intros content; simpl.
  - unfold ret. rewrite app_nil_r. reflexivity.
  - steps. rewrite IH, <- app_assoc. reflexivity.
Qed.

(** On a mapping whose questionnaire, when present, is a string and whose
    NOC codes, when present, are a list of strings, the function returns
    the five headings in order, each followed by its content, with the
    empty string or the empty list standing in for a missing field. *)
Lemma convert_dict_to_markdown_sections (container_str : pyval -> pystr)
    (d : list (pystr * pyval)) (questionnaire : pystr) (codes : list pystr)
    (log : list event) :
  dict_get d (lit "questionnaire") (VStr []) = VStr questionnaire ->
  dict_get d (lit "noc_codes") (VList []) = VList (map VStr codes) ->
  convert_dict_to_markdown_content container_str (VDict d) log =
  (inr ([lit "# Immigration Profile Report" ++ [nl]; heading_questionnaire]
        ++ append_questionnaire [] (split_on bullet_delimiter questionnaire)
        ++ [heading_job_roles;
            format_value container_str (dict_get d (lit "job_roles") (VStr [])) ++ [nl];
            heading_noc_codes]
        ++ map (fun noc => lit "- " ++ strip noc ++ [nl]) codes
        ++ [heading_crs_score;
            format_value container_str (dict_get d (lit "crs_score") (VStr [])) ++ [nl];
            heading_roadmap;
            format_value container_str (dict_get d (lit "roadmap") (VStr [])) ++ [nl]]),
   log).
Proof.
  intros Hquestionnaire Hcodes.
  unfold convert_dict_to_markdown_content, py_get. cbv zeta.
  steps. rewrite Hquestionnaire. unfold py_split_on. steps.
  rewrite Hcodes. unfold py_iter. steps.
  rewrite (bind_run _ _ _ _ _ (append_noc_codes_strs _ codes log)).
  steps. unfold ret.
  rewrite append_questionnaire_app. rewrite <- !app_assoc. reflexivity.
Qed.

Lemma convert_dict_to_markdown_of_roadmap_only :
  convert_dict_to_markdown_content Sample.container_str Sample.roadmap_only [] =
  (inr [lit "# Immigration Profile Report" ++ [nl];
        heading_questionnaire;
        heading_job_roles; [nl];
        heading_noc_codes;
        heading_crs_score; [nl];
        heading_roadmap; lit "Step 1" ++ [nl]],
   []).
Proof.
  unfold Sample.roadmap_only.
  rewrite (convert_dict_to_markdown_sections Sample.container_str _ [] [] [])
    by reflexivity.
  reflexivity.
Qed.

(** * Further properties *)

(** ** More on the normalisation *)

Lemma isspace_space : isspace space = true.
Proof. reflexivity. Qed.

Lemma split_from_app_word (w : pystr) :
  forallb nonspace w = true ->
  forall acc t, split_from acc (w ++ t) = split_from (rev w ++ acc) t.
Proof.
  induction w as [|c w IH]; intros Hw acc t; [reflexivity|].
  simpl in Hw. apply andb_true_iff in Hw as [Hc Hw].
  unfold nonspace in Hc. apply negb_true_iff in Hc.
  simpl. rewrite Hc, (IH Hw), <- app_assoc. reflexivity.
Qed.

Lemma split_from_word_end (w : pystr) :
  word w -> split_from [] w = [w].
Proof.
  intros [Hne Hw].
  rewrite <- (app_nil_r w) at 1.
  rewrite (split_from_app_word w Hw), app_nil_r. simpl.
  destruct (rev w) as [|c r] eqn:E.
  - exfalso. apply Hne. rewrite <- (rev_involutive w), E. reflexivity.
  - rewrite <- E, rev_involutive. reflexivity.
Qed.

(** Splitting what was joined gives the words back. *)
Lemma split_join_words (ws : list pystr) :
  Forall word ws -> split (join (lit " ") ws) = ws.
Proof.
  unfold split. induction 1 as [|w ws Hw Hws IH]; [reflexivity|].
  destruct ws as [|w' ws'].
  - apply split_from_word_end, Hw.
  - change (join (lit " ") (w :: w' :: ws'))
      with (w ++ space :: join (lit " ") (w' :: ws')).
    destruct Hw as [Hne Hall].
    rewrite (split_from_app_word w Hall), app_nil_r.
    cbn [split_from]. rewrite isspace_space.
    destruct (rev w) as [|c r] eqn:E.
    + exfalso. apply Hne. rewrite <- (rev_involutive w), E. reflexivity.
    + rewrite <- E, rev_involutive, IH. reflexivity.
Qed.

(** Normalising twice is normalising once. *)
Lemma single_line_idempotent (s : pystr) :
  join (lit " ") (split (join (lit " ") (split s))) = join (lit " ") (split s).
Proof. rewrite split_join_words; [reflexivity | apply split_words]. Qed.

Lemma concat_split_from (s : pystr) :
  forall acc, List.concat (split_from acc s) = rev acc ++ filter nonspace s.
Proof.
  induction s as [|c s IH]; intros acc; simpl.
  - destruct acc; simpl; rewrite ?app_nil_r; reflexivity.
  - unfold nonspace at 1. destruct (isspace c) eqn:Hc; simpl.
    + destruct acc as [|a acc'].
      * apply IH.
      * simpl. rewrite IH. reflexivity.
    + rewrite IH. simpl. rewrite <- app_assoc. reflexivity.
Qed.

Lemma filter_nonspace_word (w : pystr) :
  forallb nonspace w = true -> filter nonspace w = w.
Proof.
  induction w as [|c w IH]; simpl; [reflexivity|].
  intros H. apply andb_true_iff in H as [Hc Hw].
  rewrite Hc, (IH Hw). reflexivity.
Qed.

Lemma filter_nonspace_join (ws : list pystr) :
  Forall word ws -> filter nonspace (join (lit " ") ws) = List.concat ws.
Proof.
  induction 1 as [|w ws [_ Hw] Hws IH]; [reflexivity|].
  destruct ws as [|w' ws'].
  - simpl. rewrite app_nil_r. apply filter_nonspace_word, Hw.
  - change (join (lit " ") (w :: w' :: ws'))
      with (w ++ space :: join (lit " ") (w' :: ws')).
    rewrite filter_app, (filter_nonspace_word w Hw).
    cbn [filter]. replace (nonspace space) with false by reflexivity.
    rewrite IH. reflexivity.
Qed.

(** The normalisation keeps every character that is not whitespace, in
    order, and drops or adds none. *)
Lemma single_line_keeps_nonspace (s : pystr) :
  filter nonspace (join (lit " ") (split s)) = filter nonspace s.
Proof.
  rewrite filter_nonspace_join by apply split_words.
  unfold split. rewrite concat_split_from. reflexivity.
Qed.

Lemma split_all_space (s : pystr) :
  forallb isspace s = true -> split s = [].
Proof.
  unfold split. induction s as [|c s IH]; simpl; [reflexivity|].
  intros H. apply andb_true_iff in H as [Hc Hs].
  rewrite Hc. apply IH, Hs.
Qed.

Lemma filter_nonspace_nil (s : pystr) :
  filter nonspace s = [] -> forallb isspace s = true.
Proof.
  induction s as [|c s IH]; simpl; [reflexivity|].
  unfold nonspace at 1. destruct (isspace c); simpl; [exact IH | discriminate].
Qed.

(** The normalised text is empty exactly when the text holds nothing but
    whitespace. *)
Lemma single_line_empty_iff (s : pystr) :
  join (lit " ") (split s) = [] <-> forallb isspace s = true.
Proof.
  split.
  - intros H. apply filter_nonspace_nil.
    rewrite <- single_line_keeps_nonspace, H. reflexivity.
  - intros H. rewrite (split_all_space s H). reflexivity.
Qed.

(** ** More on the extractor *)

(** Whatever [extract_text_from_pdf] returns is the normalisation of some
    text. *)
Lemma extracted_text_shape (env : Env) (f : bytes) (log log' : list event) (s : pystr) :
  extract_text_from_pdf env f log = (inr s, log') ->
  exists text, s = join (lit " ") (split text).
Proof.
  intros H.
  destruct (secrets env (lit "RAPIDAPI_KEY")) as [e|key] eqn:Hkey.
  { unfold extract_text_from_pdf in H. revert H. run. rewrite Hkey. discriminate. }
  destruct (primary_text (ocr_service env key f)) as [text|] eqn:Hprimary.
  - rewrite (extract_primary_text env f key log text Hkey Hprimary) in H.
    inversion H. eauto.
  - destruct (extract_falls_back env f key log Hkey Hprimary) as (shown & _ & Hrun).
    rewrite Hrun, fallback_extract_text_cases in H.
    destruct (local_text env f) as [e|text]; inversion H; [exists [] | exists text];
      reflexivity.
Qed.

Lemma in_join_words (c : char) (ws : list pystr) :
  Forall word ws -> In c (join (lit " ") ws) -> isspace c = true -> c = space.
Proof.
  induction 1 as [|w ws [_ Hw] Hws IH]; intros Hin Hc; [destruct Hin|].
  assert (Hnot : ~ In c w).
  { intros Hcw. rewrite forallb_forall in Hw. specialize (Hw c Hcw).
    unfold nonspace in Hw. rewrite Hc in Hw. discriminate. }
  destruct ws as [|w' ws'].
  - simpl in Hin. contradiction.
  - change (join (lit " ") (w :: w' :: ws'))
      with (w ++ space :: join (lit " ") (w' :: ws')) in Hin.
    apply in_app_or in Hin as [Hin|[Hin|Hin]]; [contradiction | auto | auto].
Qed.

(** X1: the text [extract_text_from_pdf] returns is made of words
    separated by exactly one U+0020 each: every whitespace character in it
    is a plain space (tabs, line ends and the other Unicode spaces of the
    document are gone), and normalising it again changes nothing. *)
Theorem extracted_text_single_spaced (env : Env) (f : bytes) (log log' : list event)
    (s : pystr) :
  extract_text_from_pdf env f log = (inr s, log') ->
  (forall c, In c s -> isspace c = true -> c = space)
  /\ join (lit " ") (split s) = s
  /\ strip s = s.
Proof.
  intros H. destruct (extracted_text_shape env f log log' s H) as (text & ->).
  split; [|split].
  - intros c. apply in_join_words, split_words.
  - apply single_line_idempotent.
  - apply strip_single_line.
Qed.

Lemma extracted_text_single_spaced_witness :
  let s := lit "age 29 job developer" in
  (forall c, In c s -> isspace c = true -> c = space)
  /\ join (lit " ") (split s) = s
  /\ strip s = s.
Proof.
  apply (extracted_text_single_spaced
           (Sample.env Sample.ocr_text (inr []) (Sample.status 404) Work)
           Sample.pdf [] [requests_post ocr_url]).
  reflexivity.
Defined.

(** X2: the extractor changes whitespace only.  When a text was found, by
    the OCR service or else by PyPDF2, the string returned holds the same
    characters other than whitespace, in the same order, and it is empty
    exactly when the text found holds nothing but whitespace. *)
Theorem extraction_keeps_text (env : Env) (f : bytes) (key : pystr) (log : list event)
    (text : pystr) :
  secrets env (lit "RAPIDAPI_KEY") = inr key ->
  primary_text (ocr_service env key f) = Some text
  \/ (primary_text (ocr_service env key f) = None /\ local_text env f = inr text) ->
  exists s,
    fst (extract_text_from_pdf env f log) = inr s
    /\ filter nonspace s = filter nonspace text
    /\ (s = [] <-> forallb isspace text = true).
Proof.
  intros Hkey Hfound.
  exists (join (lit " ") (split text)).
  split; [|split].
  - destruct Hfound as [Hprimary|[Hprimary Hlocal]].
    + rewrite (extract_primary_text env f key log text Hkey Hprimary). reflexivity.
    + destruct (extract_falls_back env f key log Hkey Hprimary) as (shown & _ & ->).
      rewrite fallback_extract_text_cases, Hlocal. reflexivity.
  - apply single_line_keeps_nonspace.
  - apply single_line_empty_iff.
Qed.

Lemma extraction_keeps_text_witness :
  let found := lit "age 29" ++ [nl] ++ lit "  job developer " in
  exists s,
    fst (extract_text_from_pdf
           (Sample.env Sample.ocr_text (inr []) (Sample.status 404) Work) Sample.pdf [])
    = inr s
    /\ filter nonspace s = filter nonspace found
    /\ (s = [] <-> forallb isspace found = true).
Proof.
  intros found.
  apply (extraction_keeps_text
           (Sample.env Sample.ocr_text (inr []) (Sample.status 404) Work)
           Sample.pdf (lit "k-123") [] found).
  - reflexivity.
  - left. reflexivity.
Defined.

Lemma read_pages_app (texts : list pystr) (rest : list (result pystr)) :
  forall text,
    read_pages text (map inr texts ++ rest) = read_pages (text ++ List.concat texts) rest.
Proof.
  induction texts as [|t texts IH]; intros text; simpl.
  - rewrite app_nil_r. reflexivity.
  - rewrite IH, <- app_assoc. reflexivity.
Qed.

(** X3: the fallback glues the texts of the pages together with nothing
    between them before it normalises, so a word cut by a page break comes
    out as one word; and when a page raises, the text of the pages read
    before it is dropped: the result is the empty string and the error. *)
Theorem fallback_reads_pages (env : Env) (f : bytes) (log : list event)
    (texts : list pystr) :
  (pdf_pages env f = inr (map inr texts) ->
   fallback_extract_text env f log =
   (inr (join (lit " ") (split (List.concat texts))), log ++ [PyPDF2_PdfReader]))
  /\ (forall e rest,
      pdf_pages env f = inr (map inr texts ++ inl e :: rest) ->
      fallback_extract_text env f log =
      (inr [], log ++ [PyPDF2_PdfReader; extraction_error e])).
Proof.
  split.
  - intros Hpages. rewrite fallback_extract_text_cases. unfold local_text.
    rewrite Hpages, <- (app_nil_r (map inr texts)), read_pages_app. reflexivity.
  - intros e rest Hpages. rewrite fallback_extract_text_cases. unfold local_text.
    rewrite Hpages, read_pages_app. cbn [read_pages].
    rewrite <- app_assoc. reflexivity.
Qed.

Lemma fallback_reads_pages_witness :
  let ask pages := fallback_extract_text
                     (Sample.env (Sample.status 500) (inr pages) (Sample.status 404) Work)
                     Sample.pdf [] in
  ask [inr (lit "visa appli"); inr (lit "cation form ")]
  = (inr (lit "visa application form"), [PyPDF2_PdfReader])
  /\ ask [inr (lit "visa appli"); inl Sample.timeout; inr (lit "cation form ")]
     = (inr [], [PyPDF2_PdfReader; st_error (lit "Error in text extraction: timed out")]).
Proof.
  intros ask. split.
  - apply (proj1 (fallback_reads_pages
                    (Sample.env (Sample.status 500)
                       (inr [inr (lit "visa appli"); inr (lit "cation form ")])
                       (Sample.status 404) Work)
                    Sample.pdf [] [lit "visa appli"; lit "cation form "])).
    reflexivity.
  - apply (proj2 (fallback_reads_pages
                    (Sample.env (Sample.status 500)
                       (inr [inr (lit "visa appli"); inl Sample.timeout;
                             inr (lit "cation form ")])
                       (Sample.status 404) Work)
                    Sample.pdf [] [lit "visa appli"]) Sample.timeout
                 [inr (lit "cation form ")]).
    reflexivity.
Defined.

(** ** More on the roadmap client *)

(** X4: [call_visa_roadmap_api] never raises.  It makes one request and
    shows at most one message, which starts with "API Error: "; it shows
    none exactly when the answer has status 200 and a body that parses, and
    whenever it shows one it returns [None]. *)
Theorem client_never_raises (env : Env) (text roadmap_type info : pystr)
    (log : list event) :
  exists v shown,
    call_visa_roadmap_api env text roadmap_type info log
    = (inr v, log ++ requests_post roadmap_url :: shown)
    /\ (shown = []
        \/ (v = VNone /\ exists detail, shown = [st_error (lit "API Error: " ++ detail)]))
    /\ (shown = [] <->
        exists response,
          roadmap_service env text roadmap_type info = inr response
          /\ status_code response = 200%Z /\ json response = inr v).
Proof.
  rewrite call_visa_roadmap_api_cases. cbv zeta.
  destruct (roadmap_service env text roadmap_type info) as [e|response].
  { exists VNone, [st_error (lit "API Error: " ++ exn_str e)].
    rewrite <- app_assoc. split; [reflexivity|]. split; [right; eauto|].
    split; [discriminate | intros (r & H & _); discriminate]. }
  destruct (status_code response =? 200)%Z eqn:H200.
  - apply Z.eqb_eq in H200.
    destruct (json response) as [e|body] eqn:Hjson.
    + exists VNone, [st_error (lit "API Error: " ++ exn_str e)].
      rewrite <- app_assoc. split; [reflexivity|]. split; [right; eauto|].
      split; [discriminate | intros (r & H & _ & Hbody)].
      inversion H; subst r. congruence.
    + exists body, []. split; [reflexivity|]. split; [auto|].
      split; [eauto | reflexivity].
  - apply Z.eqb_neq in H200.
    destruct (status_code response =? 404)%Z.
    + eexists VNone, [st_error (lit "API Error: " ++ _)].
      rewrite <- app_assoc. split; [reflexivity|]. split; [right; eauto|].
      split; [discriminate | intros (r & H & Hr & _)].
      inversion H; subst r. contradiction.
    + eexists VNone, [st_error (lit "API Error: " ++ _)].
      rewrite <- app_assoc. split; [reflexivity|]. split; [right; eauto|].
      split; [discriminate | intros (r & H & Hr & _)].
      inversion H; subst r. contradiction.
Qed.

(** ** More on the page *)


Lemma client_answer_is_silent (env : Env) (text roadmap_type info : pystr)
    (log log' : list event) (result : pyval) :
  call_visa_roadmap_api env text roadmap_type info log = (inr result, log') ->
  result <> VNone ->
  log' = log ++ [requests_post roadmap_url].
Proof.
  rewrite call_visa_roadmap_api_cases. cbv zeta.
  destruct (roadmap_service env text roadmap_type info) as [e|response];
    [intros H; inversion H; congruence|].
  destruct (status_code response =? 200)%Z.
  - destruct (json response); intros H; inversion H; congruence.
  - destruct (status_code response =? 404)%Z; intros H; inversion H; congruence.
Qed.

(** X6: an answer that is falsy without being [None] (the empty string,
    an empty object or list, zero, [false]) is dropped in silence: both
    blocks end after the request with no report, no download and no
    message at all. *)
Theorem falsy_answer_is_dropped (container_str : pyval -> pystr) (env : Env)
    (roadmap_type : pystr) (f : bytes) (log log1 log2 : list event) (text : pystr)
    (result : pyval) :
  button_clicked env = true ->
  extract_and_preview env f log = (inr text, log1) ->
  call_visa_roadmap_api env text roadmap_type (text_area env)
    (log1 ++ [st_button (lit "Generate"); st_spinner (lit "Processing...")])
  = (inr result, log2) ->
  truthy result = false ->
  result <> VNone ->
  let final := log1 ++ [st_button (lit "Generate"); st_spinner (lit "Processing...");
                        requests_post roadmap_url] in
  immigration_block container_str env roadmap_type f log = (inr tt, final)
  /\ other_block container_str env roadmap_type f log = (inr tt, final).
Proof.
  intros Hclicked Hextract Hcall Hfalsy Hsome final.
  assert (Hlog : log2 = final).
  { rewrite (client_answer_is_silent _ _ _ _ _ _ _ Hcall Hsome).
    subst final. rewrite <- app_assoc. reflexivity. }
  split; [unfold immigration_block | unfold other_block];
    rewrite (block_until_answer env roadmap_type f log log1 log2 text result _
               Hclicked Hextract Hcall), Hfalsy, <- Hlog; reflexivity.
Qed.

Lemma falsy_answer_is_dropped_witness :
  let empty_object := Sample.env Sample.ocr_text (inr []) (Sample.ok (VDict [])) Immigration in
  let run := immigration_block Sample.container_str empty_object (label Immigration)
               Sample.pdf [] in
  fst run = inr tt
  /\ filter is_report (snd run) = []
  /\ filter is_error (snd run) = [].
Proof.
  intros empty_object run.
  edestruct (falsy_answer_is_dropped Sample.container_str empty_object
               (label Immigration) Sample.pdf []) as [Himm _].
  - reflexivity.
  - reflexivity.
  - reflexivity.
  - reflexivity.
  - discriminate.
  - subst run. rewrite Himm. repeat split.
Defined.

(** X7: in the Immigration block a truthy answer that is not a mapping (a
    string, a list, a number) cannot be subscripted: after the title and
    the opening of the roadmap section the run ends in [TypeError], with
    nothing of the answer shown and no download. *)
Theorem immigration_block_needs_mapping (container_str : pyval -> pystr) (env : Env)
    (roadmap_type : pystr) (f : bytes) (log log1 log2 : list event) (text : pystr)
    (result : pyval) :
  button_clicked env = true ->
  extract_and_preview env f log = (inr text, log1) ->
  call_visa_roadmap_api env text roadmap_type (text_area env)
    (log1 ++ [st_button (lit "Generate"); st_spinner (lit "Processing...")])
  = (inr result, log2) ->
  truthy result = true ->
  (forall d, result <> VDict d) ->
  exists message,
    immigration_block container_str env roadmap_type f log =
    (inl (TypeError message),
     log2 ++ [st_subheader (lit "Your Immigration Roadmap");
              st_expander (lit "Roadmap") true]).
Proof.
  intros Hclicked Hextract Hcall Htruthy Hshape.
  unfold immigration_block.
  rewrite (block_until_answer env roadmap_type f log log1 log2 text result _
             Hclicked Hextract Hcall), Htruthy.
  unfold when. steps.
  destruct result as [| | | | |d]; try (eexists; rewrite <- app_assoc; reflexivity).
  exfalso. apply (Hshape d). reflexivity.
Qed.

Lemma immigration_block_needs_mapping_witness :
  let plain := Sample.env Sample.ocr_text (inr []) (Sample.ok (VStr Sample.express_entry))
                 Immigration in
  exists message log,
    immigration_block Sample.container_str plain (label Immigration) Sample.pdf [] =
    (inl (TypeError message),
     log ++ [st_subheader (lit "Your Immigration Roadmap");
             st_expander (lit "Roadmap") true]).
Proof.
  intros plain.
  edestruct (immigration_block_needs_mapping Sample.container_str plain
               (label Immigration) Sample.pdf []) as (message & Hrun).
  - reflexivity.
  - reflexivity.
  - reflexivity.
  - reflexivity.
  - discriminate.
  - exists message. eexists. exact Hrun.
Defined.

(** X8: a mapping answer under another selection than Immigration is shown
    whole on the page under "Your <roadmap_type> Roadmap", while the PDF
    offered holds its roadmap field only, under the heading
    "# Immigration Roadmap", in a file named after the selection. *)
Theorem other_block_mapping_answer (container_str : pyval -> pystr) (env : Env)
    (c : RoadmapCategory) (f : bytes) (log log1 log2 : list event) (text : pystr)
    (d : list (pystr * pyval)) (pdf_output : bytes) :
  button_clicked env = true ->
  extract_and_preview env f log = (inr text, log1) ->
  call_visa_roadmap_api env text (label c) (text_area env)
    (log1 ++ [st_button (lit "Generate"); st_spinner (lit "Processing...")])
  = (inr (VDict d), log2) ->
  d <> [] ->
  markdown_pdf env
    (lit "# Immigration Roadmap" ++ [nl; nl]
     ++ format_value container_str (dict_get d (lit "roadmap") (VStr [])) ++ [nl])
  = inr pdf_output ->
  other_block container_str env (label c) f log =
  (inr tt,
   log2 ++ [st_subheader (lit "Your " ++ label c ++ lit " Roadmap");
            st_expander (lit "Roadmap") true;
            st_markdown (VDict d);
            st_download_button (lit "Download Roadmap as PDF") pdf_output
              (lower (label c) ++ lit "_roadmap.pdf") (lit "application/pdf")]).
Proof.
  intros Hclicked Hextract Hcall Hd Hpdf.
  apply (other_block_success container_str env (label c) f log log1 log2 text);
    [assumption | assumption | assumption | | ].
  - destruct d; [congruence | reflexivity].
  - rewrite <- Hpdf. reflexivity.
Qed.

Lemma other_block_mapping_answer_witness :
  let mapping := Sample.env Sample.ocr_text (inr []) (Sample.ok Sample.full_report) Study in
  exists log,
    other_block Sample.container_str mapping (label Study) Sample.pdf [] =
    (inr tt,
     log ++ [st_subheader (lit "Your Study Visa Roadmap");
             st_expander (lit "Roadmap") true;
             st_markdown Sample.full_report;
             st_download_button (lit "Download Roadmap as PDF") Sample.pdf
               (lit "study visa_roadmap.pdf") (lit "application/pdf")]).
Proof.
  intros mapping. eexists.
  eapply (other_block_mapping_answer Sample.container_str mapping Study Sample.pdf []).
  - reflexivity.
  - reflexivity.
  - reflexivity.
  - discriminate.
  - reflexivity.
Defined.

(** ** [split(sep)] and [strip()] *)

Lemma startswith_app (sep s : pystr) :
  startswith sep s = true -> s = sep ++ skipn (List.length sep) s.
Proof.
  revert s. induction sep as [|a sep IH]; intros s H; [reflexivity|].
  destruct s as [|b s]; [discriminate|].
  simpl in H. apply andb_true_iff in H as [Hab Hrest].
  apply N.eqb_eq in Hab. subst b.
  simpl. f_equal. apply IH, Hrest.
Qed.

Lemma split_on_from_not_nil (sep : pystr) (s : pystr) :
  forall skip piece, split_on_from sep skip piece s <> [].
Proof.
  induction s as [|c s IH]; intros skip piece; simpl; [discriminate|].
  destruct skip; [|apply IH].
  destruct (startswith sep (c :: s)); [discriminate | apply IH].
Qed.

Lemma join_cons (sep p : pystr) (rest : list pystr) :
  rest <> [] -> join sep (p :: rest) = p ++ sep ++ join sep rest.
Proof. destruct rest; [congruence | reflexivity]. Qed.

Lemma join_split_on_from (sep : pystr) (s : pystr) :
  sep <> [] ->
  forall skip piece,
    join sep (split_on_from sep skip piece s) = rev piece ++ skipn skip s.
Proof.
  intros Hsep. induction s as [|c s IH]; intros skip piece.
  - simpl. rewrite skipn_nil, app_nil_r. reflexivity.
  - cbn [split_on_from]. destruct skip as [|k]; [|apply IH].
    destruct (startswith sep (c :: s)) eqn:Hstart.
    + rewrite join_cons by apply split_on_from_not_nil.
      rewrite IH. apply startswith_app in Hstart.
      destruct sep as [|a sep']; [congruence|].
      cbn [List.length skipn] in Hstart.
      replace (List.length (a :: sep') - 1) with (List.length sep')
        by (cbn [List.length]; lia).
      cbn [rev skipn]. rewrite Hstart. reflexivity.
    + rewrite IH. cbn [rev skipn]. rewrite <- app_assoc. reflexivity.
Qed.

(** X9: [sep.join(s.split(sep))] is [s]: the pieces [split(sep)] cuts a
    text into lose nothing but the separators, so the questionnaire can be
    put together again from the segments the report lists. *)
Theorem join_split_on (sep s : pystr) :
  sep <> [] -> join sep (split_on sep s) = s.
Proof. intros Hsep. apply (join_split_on_from sep s Hsep 0 []). Qed.

Lemma join_split_on_witness :
  let questionnaire := lit "Age: 29 " ++ bullet_delimiter ++ lit " Job: developer" in
  split_on bullet_delimiter questionnaire = [lit "Age: 29 "; lit " Job: developer"]
  /\ join bullet_delimiter (split_on bullet_delimiter questionnaire) = questionnaire.
Proof.
  intros questionnaire. split; [reflexivity|].
  apply (join_split_on bullet_delimiter questionnaire). discriminate.
Defined.

Lemma lstrip_spec (s : pystr) :
  exists ws, s = ws ++ lstrip s /\ forallb isspace ws = true
             /\ no_leading_space (lstrip s) = true.
Proof.
  induction s as [|c s (ws & Hs & Hws & Hlead)]; [exists []; auto|].
  simpl. destruct (isspace c) eqn:Hc.
  - exists (c :: ws). simpl. rewrite Hc, Hws. rewrite Hs at 1. auto.
  - exists []. simpl. rewrite Hc. auto.
Qed.

Lemma rstrip_spec (s : pystr) :
  exists ws, s = rstrip s ++ ws /\ forallb isspace ws = true
             /\ no_trailing_space (rstrip s) = true.
Proof.
  destruct (lstrip_spec (rev s)) as (ws & Hs & Hws & Hlead).
  exists (rev ws). unfold rstrip, no_trailing_space. split; [|split].
  - rewrite <- rev_app_distr, <- Hs, rev_involutive. reflexivity.
  - rewrite forallb_rev. exact Hws.
  - rewrite rev_involutive. exact Hlead.
Qed.

(** What [strip()] returns: the text without the whitespace at its two
    ends, and nothing else removed. *)
Lemma strip_spec (s : pystr) :
  exists before after,
    s = before ++ strip s ++ after
    /\ forallb isspace before = true /\ forallb isspace after = true
    /\ no_leading_space (strip s) = true /\ no_trailing_space (strip s) = true.
Proof.
  destruct (lstrip_spec s) as (before & Hs & Hbefore & Hlead).
  destruct (rstrip_spec (lstrip s)) as (after & Ht & Hafter & Htrail).
  exists before, after. unfold strip.
  repeat split; try assumption.
  - rewrite <- Ht. exact Hs.
  - rewrite Ht in Hlead.
    destruct (rstrip (lstrip s)); [reflexivity | exact Hlead].
Qed.

Lemma strip_empty_iff (s : pystr) : strip s = [] <-> forallb isspace s = true.
Proof.
  destruct (strip_spec s) as (before & after & Hs & Hbefore & Hafter & _).
  split.
  - intros Hempty. rewrite Hs, Hempty, forallb_app, Hbefore. exact Hafter.
  - intros Hall. destruct (strip s) as [|c r] eqn:E; [reflexivity|].
    destruct (strip_spec s) as (b & a & Hs' & _ & _ & Hlead & _).
    rewrite E in Hs', Hlead. simpl in Hlead.
    rewrite Hs', forallb_app in Hall. apply andb_true_iff in Hall as [_ Hall].
    simpl in Hall. apply andb_true_iff in Hall as [Hc _].
    rewrite Hc in Hlead. discriminate.
Qed.

Lemma append_questionnaire_bullets (pieces : list pystr) :
  append_questionnaire [] pieces =
  map (fun line => lit "- " ++ strip line ++ [nl])
      (filter (fun line => negb (forallb isspace line)) pieces).
Proof.
  induction pieces as [|line rest IH]; [reflexivity|].
  cbn [append_questionnaire filter].
  destruct (strip line) as [|c r] eqn:E.
  - apply strip_empty_iff in E. rewrite E. exact IH.
  - assert (Hsome : forallb isspace line = false).
    { destruct (forallb isspace line) eqn:Hall; [|reflexivity].
      apply strip_empty_iff in Hall. congruence. }
    rewrite Hsome, append_questionnaire_app, IH. cbn [negb map].
    rewrite E. reflexivity.
Qed.

(** X10: the questionnaire part of the report has one bullet for every
    segment between delimiters that holds something other than whitespace,
    in the order of the text: "- ", the segment without the whitespace at
    its ends, and a line end.  Segments that are empty or blank give no
    bullet. *)
Theorem questionnaire_bullets (questionnaire : pystr) :
  let segments := split_on bullet_delimiter questionnaire in
  let shown := filter (fun line => negb (forallb isspace line)) segments in
  append_questionnaire [] segments
  = map (fun line => lit "- " ++ strip line ++ [nl]) shown
  /\ Forall (fun line =>
               strip line <> []
               /\ no_leading_space (strip line) = true
               /\ no_trailing_space (strip line) = true) shown
  /\ join bullet_delimiter segments = questionnaire.
Proof.
  intros segments shown. split; [apply append_questionnaire_bullets|]. split.
  - apply Forall_forall. intros line Hin.
    apply filter_In in Hin as [_ Hline]. apply negb_true_iff in Hline.
    destruct (strip_spec line) as (_ & _ & _ & _ & _ & Hlead & Htrail).
    repeat split; try assumption.
    intros Hempty. apply strip_empty_iff in Hempty. congruence.
  - apply (join_split_on_from bullet_delimiter questionnaire); discriminate.
Qed.

(** ** More on [convert_dict_to_markdown] *)

Lemma append_noc_codes_cases (codes : list pyval) :
  forall content log,
    if forallb is_str codes
    then exists out, append_noc_codes content codes log = (inr out, log)
    else exists v, append_noc_codes content codes log
                   = (inl (AttributeError v (lit "strip")), log).
Proof.
  induction codes as [|noc rest IH]; intros content log.
  - simpl. exists content. reflexivity.
  - cbn [forallb append_noc_codes].
    destruct (is_str noc) eqn:Hstr; cbn [andb].
    + destruct noc as [| | |s| |]; try discriminate.
      cbn [py_strip]. steps. apply IH.
    + exists noc. destruct noc; try reflexivity. discriminate.
Qed.

Lemma convert_dict_to_markdown_content_cases (container_str : pyval -> pystr)
    (data : pyval) (log : list event) :
  if renderable data
  then exists content,
      convert_dict_to_markdown_content container_str data log = (inr content, log)
  else exists e,
      convert_dict_to_markdown_content container_str data log = (inl e, log)
      /\ (exn_class e = lit "AttributeError" \/ exn_class e = lit "TypeError").
Proof.
  unfold convert_dict_to_markdown_content. cbv zeta.
  destruct data as [| | | | |d]; cbn [renderable py_get];
    try (steps; eexists; split; [reflexivity | left; reflexivity]).
  steps.
  destruct (dict_get d (lit "questionnaire") (VStr [])) as [| | |q| |];
    cbn [is_str andb py_split_on];
    try (steps; eexists; split; [reflexivity | left; reflexivity]).
  steps.
  destruct (dict_get d (lit "noc_codes") (VList [])) as [| | |chars|items|keys];
    cbn [py_iter];
    try (steps; eexists; split; [reflexivity | right; reflexivity]).
  - steps.
    pose proof (append_noc_codes_cases (map (fun c => VStr [c]) chars)) as H.
    replace (forallb is_str (map (fun c => VStr [c]) chars)) with true in H
      by (clear; induction chars; [reflexivity | simpl; assumption]).
    match goal with |- context [bind (append_noc_codes ?c _) _ ?l] =>
      destruct (H c l) as (out & Hout) end.
    rewrite (bind_run _ _ _ _ _ Hout). steps. eexists. reflexivity.
  - steps.
    pose proof (append_noc_codes_cases items) as H.
    match goal with |- context [bind (append_noc_codes ?c _) _ ?l] =>
      specialize (H c l) end.
    destruct (forallb is_str items).
    + destruct H as (out & Hout).
      rewrite (bind_run _ _ _ _ _ Hout). steps. eexists. reflexivity.
    + destruct H as (v & Hraise). unfold bind at 1. rewrite Hraise.
      eexists. split; [reflexivity | left; reflexivity].
  - steps.
    pose proof (append_noc_codes_cases (map (fun kv => VStr (fst kv)) keys)) as H.
    replace (forallb is_str (map (fun kv => VStr (fst kv)) keys)) with true in H
      by (clear; induction keys; [reflexivity | simpl; assumption]).
    match goal with |- context [bind (append_noc_codes ?c _) _ ?l] =>
      destruct (H c l) as (out & Hout) end.
    rewrite (bind_run _ _ _ _ _ Hout). steps. eexists. reflexivity.
Qed.

(** X11: [convert_dict_to_markdown] returns a report exactly on the
    answers described by [renderable]; on every other value it raises
    [AttributeError] or [TypeError].  Either way it shows nothing on the
    page. *)
Theorem convert_dict_to_markdown_returns_iff (container_str : pyval -> pystr)
    (data : pyval) (log : list event) :
  ((exists text, convert_dict_to_markdown container_str data log = (inr text, log))
   <-> renderable data = true)
  /\ (renderable data = false ->
      exists e,
        convert_dict_to_markdown container_str data log = (inl e, log)
        /\ (exn_class e = lit "AttributeError" \/ exn_class e = lit "TypeError")).
Proof.
  pose proof (convert_dict_to_markdown_content_cases container_str data log) as Hcases.
  unfold convert_dict_to_markdown, bind.
  destruct (renderable data).
  - destruct Hcases as (content & ->).
    split; [split; [reflexivity | intros _; eexists; reflexivity] | discriminate].
  - destruct Hcases as (e & -> & Hclass).
    split; [split; [intros (text & Htext); discriminate | discriminate]|].
    intros _. exists e. split; [reflexivity | exact Hclass].
Qed.

(** X12: on a mapping whose questionnaire, when present, is a string and
    whose NOC codes, when present, are a list of strings,
    [convert_dict_to_markdown] returns the title and the five numbered
    headings in order, each followed by its content: the bullets of the
    questionnaire, the job roles, one bullet for each code without the
    whitespace at its ends, the CRS score and the roadmap.  A field the
    mapping lacks contributes the empty string or no bullet; nothing is
    raised and nothing is shown. *)
Theorem convert_dict_to_markdown_report (container_str : pyval -> pystr)
    (d : list (pystr * pyval)) (questionnaire : pystr) (codes : list pystr)
    (log : list event) :
  dict_get d (lit "questionnaire") (VStr []) = VStr questionnaire ->
  dict_get d (lit "noc_codes") (VList []) = VList (map VStr codes) ->
  let field (key : string) :=
    format_value container_str (dict_get d (lit key) (VStr [])) ++ [nl] in
  convert_dict_to_markdown container_str (VDict d) log =
  (inr (join [nl]
          ([lit "# Immigration Profile Report" ++ [nl];
            lit "## 1. Questionnaire and Response:" ++ [nl]]
           ++ map (fun line => lit "- " ++ strip line ++ [nl])
                (filter (fun line => negb (forallb isspace line))
                   (split_on bullet_delimiter questionnaire))
           ++ [lit "## 2. Job Roles Based on Education and Work Experience:" ++ [nl];
               field "job_roles"%string;
               lit "## 3. NOC Codes:" ++ [nl]]
           ++ map (fun noc => lit "- " ++ strip noc ++ [nl]) codes
           ++ [lit "## 4. CRS Score Breakdown:" ++ [nl];
               field "crs_score"%string;
               lit "## 5. Roadmap for Canada Immigration:" ++ [nl];
               field "roadmap"%string])),
   log).
Proof.
  intros Hquestionnaire Hcodes field. unfold convert_dict_to_markdown.
  rewrite (bind_run _ _ _ _ _
             (convert_dict_to_markdown_sections container_str d questionnaire codes log
                Hquestionnaire Hcodes)).
  unfold ret. rewrite append_questionnaire_bullets. reflexivity.
Qed.

Lemma convert_dict_to_markdown_report_witness :
  convert_dict_to_markdown Sample.container_str Sample.roadmap_only [] =
  (inr (join [nl]
          [lit "# Immigration Profile Report" ++ [nl];
           lit "## 1. Questionnaire and Response:" ++ [nl];
           lit "## 2. Job Roles Based on Education and Work Experience:" ++ [nl];
           [nl];
           lit "## 3. NOC Codes:" ++ [nl];
           lit "## 4. CRS Score Breakdown:" ++ [nl];
           [nl];
           lit "## 5. Roadmap for Canada Immigration:" ++ [nl];
           lit "Step 1" ++ [nl]]),
   []).
Proof.
  apply (convert_dict_to_markdown_report Sample.container_str
           [(lit "roadmap", VStr (lit "Step 1"))] [] [] []);
    reflexivity.
Defined.

Lemma immigration_block_success_witness :
  let full := Sample.env Sample.ocr_text (inr []) (Sample.ok Sample.full_report)
                Immigration in
  exists log,
    immigration_block Sample.container_str full (label Immigration) Sample.pdf [] =
    (inr tt,
     log ++ [st_subheader (lit "Your Immigration Roadmap");
             st_expander (lit "Roadmap") true; st_markdown (VStr (lit "Step 1"));
             st_expander (lit "CRS Score Details") false; st_markdown (VStr (lit "470"));
             st_expander (lit "Eligible Job Roles") false;
             st_markdown (VStr (lit "Software developer"));
             st_expander (lit "NOC Codes") false]
          ++ [st_markdown (VStr (lit "21232")); st_markdown (VStr (lit "---"));
              st_markdown (VStr (lit "21234")); st_markdown (VStr (lit "---"))]
          ++ [st_download_button (lit "Download Roadmap as PDF") Sample.pdf
                (lit "immigration_roadmap.pdf") (lit "application/pdf")]).
Proof.
  intros full. eexists.
  eapply (immigration_block_success Sample.container_str full (label Immigration)
            Sample.pdf [] _ _ _ _
            (VStr (lit "Step 1")) (VStr (lit "470")) (VStr (lit "Software developer"))
            [VStr (lit "21232"); VStr (lit "21234")] Sample.pdf);
    reflexivity.
Defined.

(** ** The requests of a run *)

Lemma requests_app (log added : list event) :
  requests (log ++ added) = requests log ++ requests added.
Proof.
  induction log as [|ev log IH]; [reflexivity|].
  destruct ev; simpl; rewrite IH; reflexivity.
Qed.

Lemma requests_quiet (added : list event) :
  Forall (fun ev => requests [ev] = []) added -> requests added = [].
Proof.
  induction 1 as [|ev rest Hev _ IH]; [reflexivity|].
  change (ev :: rest) with ([ev] ++ rest). rewrite requests_app, Hev, IH. reflexivity.
Qed.

Lemma extract_text_from_pdf_requests (env : Env) (f : bytes) (key : pystr)
    (log : list event) :
  secrets env (lit "RAPIDAPI_KEY") = inr key ->
  exists s added,
    extract_text_from_pdf env f log = (inr s, log ++ added)
    /\ requests added = [ocr_url].
Proof.
  intros Hkey.
  destruct (primary_text (ocr_service env key f)) as [text|] eqn:Hprimary.
  - rewrite (extract_primary_text env f key log text Hkey Hprimary).
    eexists. exists [requests_post ocr_url]. split; reflexivity.
  - destruct (extract_falls_back env f key log Hkey Hprimary) as (shown & Hshown & ->).
    rewrite fallback_extract_text_cases.
    destruct (local_text env f) as [e|text]; eexists;
      [ exists ([requests_post ocr_url] ++ shown
                ++ [PyPDF2_PdfReader; extraction_error e])
      | exists ([requests_post ocr_url] ++ shown ++ [PyPDF2_PdfReader]) ];
      (split; [rewrite <- !app_assoc; reflexivity|]);
      destruct Hshown as [-> | ->]; reflexivity.
Qed.

Lemma extract_and_preview_requests (env : Env) (f : bytes) (key : pystr)
    (log : list event) :
  secrets env (lit "RAPIDAPI_KEY") = inr key ->
  exists s added,
    extract_and_preview env f log = (inr s, log ++ added)
    /\ requests added = [ocr_url].
Proof.
  intros Hkey. unfold extract_and_preview. rewrite bind_emit.
  destruct (extract_text_from_pdf_requests env f key
              (log ++ [st_spinner (lit "Extracting text from PDF...")]) Hkey)
    as (s & added & Hrun & Hrequests).
  rewrite (bind_run _ _ _ _ _ Hrun). exists s.
  destruct s as [|c s']; cbn [truthy when]; cbv beta iota delta [bind emit ret].
  - exists (st_spinner (lit "Extracting text from PDF...") :: added).
    rewrite <- app_assoc. split; [reflexivity | exact Hrequests].
  - eexists ((st_spinner (lit "Extracting text from PDF...") :: added) ++ [_; _; _]).
    rewrite <- !app_assoc. split; [reflexivity|].
    cbn [app requests]. rewrite requests_app, Hrequests. reflexivity.
Qed.

Lemma call_visa_roadmap_api_requests (env : Env) (text roadmap_type info : pystr)
    (log : list event) :
  exists v added,
    call_visa_roadmap_api env text roadmap_type info log = (inr v, log ++ added)
    /\ requests added = [roadmap_url].
Proof.
  rewrite call_visa_roadmap_api_cases. cbv zeta.
  destruct (roadmap_service env text roadmap_type info) as [e|response].
  { eexists. exists [requests_post roadmap_url; st_error (lit "API Error: " ++ exn_str e)].
    rewrite <- app_assoc. split; reflexivity. }
  destruct (status_code response =? 200)%Z.
  - destruct (json response) as [e|body].
    + eexists. exists [requests_post roadmap_url; st_error (lit "API Error: " ++ exn_str e)].
      rewrite <- app_assoc. split; reflexivity.
    + eexists. exists [requests_post roadmap_url]. split; reflexivity.
  - destruct (status_code response =? 404)%Z;
      eexists; eexists [requests_post roadmap_url; st_error _];
      rewrite <- app_assoc; split; reflexivity.
Qed.

(** What a block does once the text is extracted, whatever [render] it
    ends with: the requests are the one to the OCR service and, when
    "Generate" was clicked, the one to the roadmap service. *)
Lemma block_requests (env : Env) (roadmap_type : pystr) (f : bytes) (key : pystr)
    (render : pyval -> M unit) (log : list event) :
  secrets env (lit "RAPIDAPI_KEY") = inr key ->
  (forall result, appends (fun ev => requests [ev] = []) (render result)) ->
  exists added,
    snd ((extracted_text <- extract_and_preview env f ;;
          emit (st_button (lit "Generate")) ;;
          when (button_clicked env)
            (emit (st_spinner (lit "Processing...")) ;;
             result <- call_visa_roadmap_api env extracted_text roadmap_type
                         (text_area env) ;;
             render result))%monad log)
    = log ++ added
    /\ requests added =
       if button_clicked env then [ocr_url; roadmap_url] else [ocr_url].
Proof.
  intros Hkey Hrender.
  destruct (extract_and_preview_requests env f key log Hkey)
    as (text & a1 & Hextract & Hr1).
  rewrite (bind_run _ _ _ _ _ Hextract), bind_emit.
  destruct (button_clicked env); unfold when.
  - rewrite bind_emit.
    match goal with |- context [bind _ _ ?l] =>
      destruct (call_visa_roadmap_api_requests env text roadmap_type (text_area env) l)
        as (result & a2 & Hcall & Hr2) end.
    rewrite (bind_run _ _ _ _ _ Hcall).
    match goal with |- context [render result ?l] =>
      destruct (Hrender result l) as (a3 & Hlog & Hquiet) end.
    rewrite Hlog.
    exists (a1 ++ [st_button (lit "Generate")] ++ [st_spinner (lit "Processing...")]
               ++ a2 ++ a3).
    split; [rewrite <- !app_assoc; reflexivity|].
    rewrite !requests_app, Hr1, Hr2, (requests_quiet a3 Hquiet). reflexivity.
  - exists (a1 ++ [st_button (lit "Generate")]). unfold ret.
    split; [rewrite app_assoc; reflexivity|].
    rewrite requests_app, Hr1. reflexivity.
Qed.

(** X13: a run of the page makes no request at all unless the secret is
    held, a visa type is selected and a file is uploaded; then it asks the
    OCR service once, and it asks the roadmap service, once and after the
    OCR service, exactly when "Generate" was clicked.  No request is ever
    repeated, whatever the services answer. *)
Theorem requests_of_a_run (container_str : pyval -> pystr) (env : Env)
    (log : list event) :
  exists added,
    snd (main container_str env log) = log ++ added
    /\ requests added =
       match secrets env (lit "RAPIDAPI_KEY"), selectbox env, file_uploader env with
       | inr _, Some _, Some _ =>
           if button_clicked env then [ocr_url; roadmap_url] else [ocr_url]
       | _, _, _ => []
       end.
Proof.
  unfold main.
  destruct (secrets env (lit "RAPIDAPI_KEY")) as [e|key] eqn:Hkey.
  { eexists [_]. split; reflexivity. }
  destruct (selectbox env) as [c|]; cbn [option_map];
    [|exists []; rewrite app_nil_r; split; reflexivity].
  destruct (file_uploader env) as [f|];
    [|exists []; rewrite app_nil_r; split; reflexivity].
  rewrite label_is_immigration.
  assert (Himmigration : exists added,
    snd (immigration_block container_str env (label c) f log) = log ++ added
    /\ requests added = if button_clicked env then [ocr_url; roadmap_url] else [ocr_url]).
  { unfold immigration_block.
    apply (block_requests env (label c) f key); [exact Hkey|].
    intros result. unfold offer_download.
    repeat first
      [ apply py_getitem_appends | apply py_iter_appends | appends_step ];
      reflexivity. }
  assert (Hother : exists added,
    snd (other_block container_str env (label c) f log) = log ++ added
    /\ requests added = if button_clicked env then [ocr_url; roadmap_url] else [ocr_url]).
  { unfold other_block.
    apply (block_requests env (label c) f key); [exact Hkey|].
    intros result. unfold offer_download.
    repeat appends_step; reflexivity. }
  destruct c; cbn [negb when].
  - destruct Himmigration as (added & Hlog & Hrequests). exists added.
    split; [|exact Hrequests].
    unfold bind.
    destruct (immigration_block container_str env (label Immigration) f log)
      as [[e|[]] log']; exact Hlog.
  - rewrite bind_ret. exact Hother.
  - rewrite bind_ret. exact Hother.
  - rewrite bind_ret. exact Hother.
Qed.

(** ** Empty text, and codes that are not a list *)

(** X14: an empty extracted text does not stop the run.  No success
    message and no preview are shown for it, but the "Generate" button is,
    and when it is clicked the roadmap service is asked with the empty
    questionnaire and the block goes on from its answer. *)
Theorem empty_text_is_still_sent (container_str : pyval -> pystr) (env : Env)
    (roadmap_type : pystr) (f : bytes) (log log0 log2 : list event) (result : pyval) :
  extract_text_from_pdf env f (log ++ [st_spinner (lit "Extracting text from PDF...")])
  = (inr [], log0) ->
  button_clicked env = true ->
  call_visa_roadmap_api env [] roadmap_type (text_area env)
    (log0 ++ [st_button (lit "Generate"); st_spinner (lit "Processing...")])
  = (inr result, log2) ->
  extract_and_preview env f log = (inr [], log0)
  /\ (exists shown,
        snd (immigration_block container_str env roadmap_type f log) = log2 ++ shown)
  /\ (exists shown,
        snd (other_block container_str env roadmap_type f log) = log2 ++ shown).
Proof.
  intros Hextract Hclicked Hcall.
  assert (Hpreview : extract_and_preview env f log = (inr [], log0)).
  { unfold extract_and_preview.
    rewrite bind_emit, (bind_run _ _ _ _ _ Hextract). reflexivity. }
  split; [exact Hpreview|].
  split; [unfold immigration_block | unfold other_block];
    rewrite (block_until_answer env roadmap_type f log log0 log2 [] result _
               Hclicked Hpreview Hcall);
    match goal with |- context [when ?c ?m log2] =>
      assert (Happends : appends (fun _ => True) (when c m))
        by (unfold offer_download;
            repeat first
              [ apply py_getitem_appends | apply py_iter_appends | appends_step ];
            exact I);
      destruct (Happends log2) as (shown & Hlog & _)
    end;
    exists shown; exact Hlog.
Qed.

Lemma empty_text_is_still_sent_witness :
  let blank := Sample.env (Sample.ok (VDict [(lit "text", VStr [nl; space])])) (inr [])
                 (Sample.ok (VStr Sample.express_entry)) Work in
  extract_and_preview blank Sample.pdf [] =
  (inr [], [st_spinner (lit "Extracting text from PDF..."); requests_post ocr_url])
  /\ offered_files (snd (other_block Sample.container_str blank (label Work) Sample.pdf []))
     = [lit "work visa_roadmap.pdf"].
Proof.
  intros blank.
  edestruct (empty_text_is_still_sent Sample.container_str blank (label Work)
               Sample.pdf []) as (Hpreview & _ & _).
  - reflexivity.
  - reflexivity.
  - reflexivity.
  - split; [exact Hpreview | reflexivity].
Defined.

(** X15: when the answer holds its NOC codes as one string instead of a
    list, the Immigration block iterates the string: every character of it
    is shown as a code of its own, each followed by the separator. *)
Theorem noc_codes_string_is_spelled_out (container_str : pyval -> pystr) (env : Env)
    (roadmap_type : pystr) (f : bytes) (log log1 log2 : list event) (text : pystr)
    (d : list (pystr * pyval)) (roadmap crs_score job_roles : pyval)
    (codes : pystr) (pdf_output : bytes) :
  button_clicked env = true ->
  extract_and_preview env f log = (inr text, log1) ->
  call_visa_roadmap_api env text roadmap_type (text_area env)
    (log1 ++ [st_button (lit "Generate"); st_spinner (lit "Processing...")])
  = (inr (VDict d), log2) ->
  lookup (lit "roadmap") d = Some roadmap ->
  lookup (lit "crs_score") d = Some crs_score ->
  lookup (lit "job_roles") d = Some job_roles ->
  lookup (lit "noc_codes") d = Some (VStr codes) ->
  markdown_pdf env (create_pdf_content container_str roadmap_type (VDict d))
  = inr pdf_output ->
  immigration_block container_str env roadmap_type f log =
  (inr tt,
   log2 ++ [st_subheader (lit "Your Immigration Roadmap");
            st_expander (lit "Roadmap") true; st_markdown roadmap;
            st_expander (lit "CRS Score Details") false; st_markdown crs_score;
            st_expander (lit "Eligible Job Roles") false; st_markdown job_roles;
            st_expander (lit "NOC Codes") false]
        ++ flat_map (fun c => [st_markdown (VStr [c]); st_markdown (VStr (lit "---"))])
             codes
        ++ [st_download_button (lit "Download Roadmap as PDF") pdf_output
              (lit "immigration_roadmap.pdf") (lit "application/pdf")]).
Proof.
  intros Hclicked Hextract Hcall Hroadmap Hcrs Hjobs Hnoc Hpdf.
  assert (Htruthy : truthy (VDict d) = true).
  { destruct d; [discriminate Hroadmap | reflexivity]. }
  assert (Hevents :
    noc_events (map (fun c => VStr [c]) codes)
    = flat_map (fun c => [st_markdown (VStr [c]); st_markdown (VStr (lit "---"))]) codes).
  { unfold noc_events. clear. induction codes as [|c rest IH]; [reflexivity|].
    cbn [map flat_map]. rewrite IH. reflexivity. }
  unfold immigration_block.
  rewrite (block_until_answer env roadmap_type f log log1 log2 text (VDict d) _
             Hclicked Hextract Hcall).
  rewrite Htruthy. unfold when, py_getitem, py_iter, offer_download.
  rewrite Hroadmap, Hcrs, Hjobs, Hnoc. steps.
  rewrite (bind_run _ _ _ _ _ (for_each_noc_codes _ _)).
  cbv zeta. rewrite Hpdf. steps. unfold emit.
  rewrite Hevents, <- !app_assoc. reflexivity.
Qed.

Lemma noc_codes_string_is_spelled_out_witness :
  let answer := VDict [(lit "roadmap", VStr (lit "Step 1"));
                       (lit "crs_score", VStr (lit "470"));
                       (lit "job_roles", VStr (lit "Developer"));
                       (lit "noc_codes", VStr (lit "21"))] in
  let spelled := Sample.env Sample.ocr_text (inr []) (Sample.ok answer) Immigration in
  exists log,
    immigration_block Sample.container_str spelled (label Immigration) Sample.pdf [] =
    (inr tt,
     log ++ [st_subheader (lit "Your Immigration Roadmap");
             st_expander (lit "Roadmap") true; st_markdown (VStr (lit "Step 1"));
             st_expander (lit "CRS Score Details") false; st_markdown (VStr (lit "470"));
             st_expander (lit "Eligible Job Roles") false;
             st_markdown (VStr (lit "Developer"));
             st_expander (lit "NOC Codes") false]
          ++ [st_markdown (VStr (lit "2")); st_markdown (VStr (lit "---"));
              st_markdown (VStr (lit "1")); st_markdown (VStr (lit "---"))]
          ++ [st_download_button (lit "Download Roadmap as PDF") Sample.pdf
                (lit "immigration_roadmap.pdf") (lit "application/pdf")]).
Proof.
  intros answer spelled. eexists.
  eapply (noc_codes_string_is_spelled_out Sample.container_str spelled
            (label Immigration) Sample.pdf [] _ _ _ _
            (VStr (lit "Step 1")) (VStr (lit "470")) (VStr (lit "Developer"))
            (lit "21") Sample.pdf);
    reflexivity.
Defined.

(** ** The content of the download for a mapping, and the missing secret *)

(** X16: for a mapping the content of the download is the heading
    "# Immigration Roadmap", a blank line, the roadmap field (the empty
    string when the mapping has none) and a line end.  The selection and
    every other field of the mapping play no part in it: two mappings with
    the same roadmap give the same download. *)
Theorem download_holds_roadmap_only (container_str : pyval -> pystr)
    (roadmap_type : pystr) (d : list (pystr * pyval)) :
  create_pdf_content container_str roadmap_type (VDict d)
  = lit "# Immigration Roadmap" ++ [nl; nl]
    ++ format_value container_str (dict_get d (lit "roadmap") (VStr [])) ++ [nl]
  /\ (lookup (lit "roadmap") d = None ->
      create_pdf_content container_str roadmap_type (VDict d)
      = lit "# Immigration Roadmap" ++ [nl; nl; nl])
  /\ (forall roadmap_type' d',
      lookup (lit "roadmap") d' = lookup (lit "roadmap") d ->
      create_pdf_content container_str roadmap_type' (VDict d')
      = create_pdf_content container_str roadmap_type (VDict d)).
Proof.
  assert (Hcontent : forall t e,
    create_pdf_content container_str t (VDict e)
    = lit "# Immigration Roadmap" ++ [nl; nl]
      ++ format_value container_str (dict_get e (lit "roadmap") (VStr [])) ++ [nl]).
  { intros t e. unfold create_pdf_content. cbv zeta. cbn [app join].
    rewrite <- !app_assoc. reflexivity. }
  split; [apply Hcontent|]. split.
  - intros Hmissing. rewrite Hcontent. unfold dict_get. rewrite Hmissing. reflexivity.
  - intros t d' Hsame. rewrite !Hcontent. unfold dict_get. rewrite Hsame. reflexivity.
Qed.

(** X17: without the secret [extract_text_from_pdf] raises what the lookup
    of line 18 raises, before the [try]: nothing is caught, no request is
    made and the fallback is not tried. *)
Theorem extract_requires_secret (env : Env) (f : bytes) (log : list event) (e : exn) :
  secrets env (lit "RAPIDAPI_KEY") = inl e ->
  extract_text_from_pdf env f log = (inl e, log)
  /\ extract_and_preview env f log
     = (inl e, log ++ [st_spinner (lit "Extracting text from PDF...")]).
Proof.
  intros Hmissing.
  assert (Hraise : forall l, extract_text_from_pdf env f l = (inl e, l)).
  { intros l. unfold extract_text_from_pdf, bind, lift. rewrite Hmissing. reflexivity. }
  split; [apply Hraise|].
  unfold extract_and_preview. rewrite bind_emit. unfold bind. rewrite Hraise. reflexivity.
Qed.

Lemma extract_requires_secret_witness :
  let unconfigured :=
    {| secrets := fun key => inl (KeyError key);
       ocr_service := fun _ _ => Sample.ocr_text;
       pdf_pages := fun _ => inr [];
       roadmap_service := fun _ _ _ => Sample.status 404;
       markdown_pdf := fun _ => inr Sample.pdf;
       selectbox := Some Work;
       text_area := [];
       file_uploader := Some Sample.pdf;
       button_clicked := true |} in
  extract_text_from_pdf unconfigured Sample.pdf [] = (inl (KeyError (lit "RAPIDAPI_KEY")), [])
  /\ extract_and_preview unconfigured Sample.pdf []
     = (inl (KeyError (lit "RAPIDAPI_KEY")), [st_spinner (lit "Extracting text from PDF...")]).
Proof.
  intros unconfigured.
  apply (extract_requires_secret unconfigured Sample.pdf [] (KeyError (lit "RAPIDAPI_KEY"))).
  reflexivity.
Defined.
